(** * Form annotation engine: binding and rendering

    A shallow embedding of [renderer/render.js] (the annotation-driven
    renderer) and of the currency formatter of the 1040 script, with the
    properties of the binding-and-render core stated over it.

    Conventions of the model:
    - a JavaScript string is a [string] of 8-bit code units; the
      character classes of the engine ([\d], [\s], line terminators, case
      mapping) are modelled on their ASCII members;
    - a JavaScript number is a signed decimal [m / 10^scale], [NaN] or an
      infinity: the sign of zero is kept, binary64 rounding is not
      modelled;
    - geometry (positions, font sizes, text widths) is computed in [Q];
    - a thrown exception is a [Throw] result; the document and the console
      are threaded through the render passes as an explicit [World]. *)

From Stdlib Require Import ZArith NArith QArith Ascii String List Lia.
From Stdlib Require Import DecimalString.
From stdpp Require Import base gmap strings list.

Local Open Scope Z_scope.
Local Open Scope list_scope.
Local Open Scope stdpp_scope.

(** ** Results of computations that may throw *)

Inductive exn :=
| TypeError (msg : string)
| RangeError (msg : string)
| PdfError (msg : string)
| StackExhausted.

Inductive result (A : Type) :=
| Ok (a : A)
| Throw (e : exn).
Arguments Ok {A} a.
Arguments Throw {A} e.

Definition rbind {A B} (r : result A) (k : A -> result B) : result B :=
  match r with
  | Ok a => k a
  | Throw e => Throw e
  end.

Notation "'let?' x ':=' r 'in' k" := (rbind r (fun x => k))
  (at level 10, x name, r at level 100, k at level 200).

Fixpoint mapR {A B} (f : A -> result B) (l : list A) : result (list B) :=
  match l with
  | [] => Ok []
  | a :: l' =>
      let? b := f a in
      let? bs := mapR f l' in
      Ok (b :: bs)
  end.

(** ** Strings *)

Module Str.

Definition code (c : ascii) : N := N_of_ascii c.

Definition isDigit (c : ascii) : bool :=
  ((48 <=? code c) && (code c <=? 57))%N.

(** [\s] and [String.prototype.trim]: tab, line feed, vertical tab,
    form feed, carriage return, space. *)
Definition isSpace (c : ascii) : bool :=
  ((9 <=? code c) && (code c <=? 13) || (code c =? 32))%N.

(** The characters [.] does not match. *)
Definition isLineTerminator (c : ascii) : bool :=
  ((code c =? 10) || (code c =? 13))%N.

Definition isEmpty (s : string) : bool :=
  match s with
  | EmptyString => true
  | String _ _ => false
  end.

Definition startsWith (p s : string) : bool := String.prefix p s.

Fixpoint drop (n : nat) (s : string) : string :=
  match n, s with
  | O, _ => s
  | S _, EmptyString => EmptyString
  | S n', String _ s' => drop n' s'
  end.

Fixpoint take (n : nat) (s : string) : string :=
  match n, s with
  | O, _ => EmptyString
  | S _, EmptyString => EmptyString
  | S n', String c s' => String c (take n' s')
  end.

(** [s.slice(i, j)] and [s.slice(i)] for indices within bounds. *)
Definition slice (i j : nat) (s : string) : string := take (j - i) (drop i s).

Fixpoint includes (needle s : string) : bool :=
  String.prefix needle s ||
  match s with
  | EmptyString => false
  | String _ s' => includes needle s'
  end.

Fixpoint forallb (p : ascii -> bool) (s : string) : bool :=
  match s with
  | EmptyString => true
  | String c s' => p c && forallb p s'
  end.

Fixpoint filter (p : ascii -> bool) (s : string) : string :=
  match s with
  | EmptyString => EmptyString
  | String c s' => if p c then String c (filter p s') else filter p s'
  end.

Fixpoint map (f : ascii -> ascii) (s : string) : string :=
  match s with
  | EmptyString => EmptyString
  | String c s' => String (f c) (map f s')
  end.

Fixpoint dropWhile (p : ascii -> bool) (s : string) : string :=
  match s with
  | EmptyString => EmptyString
  | String c s' => if p c then dropWhile p s' else s
  end.

(** The longest prefix satisfying [p], and what follows it. *)
Fixpoint span (p : ascii -> bool) (s : string) : string * string :=
  match s with
  | EmptyString => (EmptyString, EmptyString)
  | String c s' =>
      if p c then let (a, b) := span p s' in (String c a, b)
      else (EmptyString, s)
  end.

Fixpoint rev_append (s acc : string) : string :=
  match s with
  | EmptyString => acc
  | String c s' => rev_append s' (String c acc)
  end.

Definition rev (s : string) : string := rev_append s EmptyString.

Definition trimStart (s : string) : string := dropWhile isSpace s.
Definition trimEnd (s : string) : string := rev (dropWhile isSpace (rev s)).
Definition trim (s : string) : string := trimEnd (trimStart s).

Definition upper (c : ascii) : ascii :=
  if ((97 <=? code c) && (code c <=? 122))%N
  then ascii_of_N (code c - 32) else c.

Definition lower (c : ascii) : ascii :=
  if ((65 <=? code c) && (code c <=? 90))%N
  then ascii_of_N (code c + 32) else c.

Definition toUpperCase : string -> string := map upper.
Definition toLowerCase : string -> string := map lower.

Fixpoint repeat (c : ascii) (n : nat) : string :=
  match n with
  | O => EmptyString
  | S n' => String c (repeat c n')
  end.

(** [s.padStart(n, "0")]. *)
Definition padStart0 (n : nat) (s : string) : string :=
  repeat "0"%char (n - String.length s) +:+ s.

(** [split_go sep skip s]: the first piece of [s] and the pieces after
    it, where the first [skip] characters of [s] are the tail of a
    separator that has just been matched. *)
Fixpoint split_go (sep : string) (skip : nat) (s : string)
  : string * list string :=
  match s with
  | EmptyString => (EmptyString, [])
  | String c s' =>
      match skip with
      | S k => split_go sep k s'
      | O =>
          if String.prefix sep s then
            let (p, ps) := split_go sep (String.length sep - 1) s' in
            (EmptyString, p :: ps)
          else
            let (p, ps) := split_go sep 0 s' in
            (String c p, ps)
      end
  end.

(** [s.split(sep)] for a non-empty separator. *)
Definition split (sep s : string) : list string :=
  let (p, ps) := split_go sep 0 s in p :: ps.

(** [s.replace(pat, rep)] for a string pattern: the first occurrence. *)
Fixpoint replaceFirst (pat rep s : string) : string :=
  if String.prefix pat s then rep +:+ drop (String.length pat) s
  else match s with
       | EmptyString => EmptyString
       | String c s' => String c (replaceFirst pat rep s')
       end.

Definition join (sep : string) (l : list string) : string :=
  String.concat sep l.

(** The characters of the pieces and of the separators between them
    are the characters of the string. *)
Definition piecesLength (sep : string) (r : string * list string) : nat :=
  (String.length (fst r)
   + list_sum (List.map (fun q => String.length sep + String.length q) (snd r)))%nat.

End Str.

(** ** Numbers *)

Inductive number :=
| NaN
| Inf (neg : bool)
| Fin (neg : bool) (m : N) (scale : nat).

Module Num.

Definition pow10 (n : nat) : N := (10 ^ N.of_nat n)%N.

Definition ofN (n : N) : number := Fin false n 0.
Definition ofNat (n : nat) : number := Fin false (N.of_nat n) 0.

Definition isNaN (x : number) : bool :=
  match x with
  | NaN => true
  | _ => false
  end.

Definition isZero (x : number) : bool :=
  match x with
  | Fin _ m _ => (m =? 0)%N
  | _ => false
  end.

(** The signed mantissa of a finite number. *)
Definition signed (neg : bool) (m : N) : Z :=
  if neg then - Z.of_N m else Z.of_N m.

(** [x === y] on numbers: [NaN] equals nothing, the zeros are equal. *)
Definition eqb (x y : number) : bool :=
  match x, y with
  | Inf a, Inf b => Bool.eqb a b
  | Fin a m s, Fin b n t =>
      (signed a m * Z.of_N (pow10 t) =? signed b n * Z.of_N (pow10 s))%Z
  | _, _ => false
  end.

(** [x + y]. *)
Definition add (x y : number) : number :=
  match x, y with
  | NaN, _ | _, NaN => NaN
  | Inf a, Inf b => if Bool.eqb a b then Inf a else NaN
  | Inf a, Fin _ _ _ => Inf a
  | Fin _ _ _, Inf b => Inf b
  | Fin a m s, Fin b n t =>
      let z := (signed a m * Z.of_N (pow10 (t - s))
                + signed b n * Z.of_N (pow10 (s - t)))%Z in
      if (z =? 0)%Z
      then Fin (a && b && (m =? 0)%N && (n =? 0)%N) 0 (Nat.max s t)
      else Fin (z <? 0)%Z (Z.abs_N z) (Nat.max s t)
  end.

Definition digitsOfN (n : N) : string :=
  NilZero.string_of_uint (N.to_uint n).

Definition digitValue (c : ascii) : N := (Str.code c - 48)%N.

(** The value of a string of decimal digits. *)
Fixpoint digitsToN_go (acc : N) (s : string) : N :=
  match s with
  | EmptyString => acc
  | String c s' => digitsToN_go (acc * 10 + digitValue c)%N s'
  end.

Definition digitsToN (s : string) : N := digitsToN_go 0 s.

Definition digitsOfZ (z : Z) : string :=
  if (z <? 0)%Z then "-" +:+ digitsOfN (Z.abs_N z) else digitsOfN (Z.abs_N z).

(** [Number::toString]: the decimal digits without trailing zeros, the
    position [n] of the decimal point, and the four layouts chosen
    from [n] and the number [k] of digits. *)
Definition toString (x : number) : string :=
  match x with
  | NaN => "NaN"
  | Inf neg => if neg then "-Infinity" else "Infinity"
  | Fin neg m scale =>
      if (m =? 0)%N then "0" else
      let all := digitsOfN m in
      let ds := Str.rev (Str.dropWhile (Ascii.eqb "0"%char) (Str.rev all)) in
      let k := Z.of_nat (String.length ds) in
      let n := (Z.of_nat (String.length all) - Z.of_nat scale)%Z in
      let body :=
        if ((k <=? n) && (n <=? 21))%Z then
          ds +:+ Str.repeat "0"%char (Z.to_nat (n - k))
        else if ((0 <? n) && (n <=? 21))%Z then
          Str.take (Z.to_nat n) ds +:+ "." +:+ Str.drop (Z.to_nat n) ds
        else if ((-6 <? n) && (n <=? 0))%Z then
          "0." +:+ Str.repeat "0"%char (Z.to_nat (- n)) +:+ ds
        else
          let e := (n - 1)%Z in
          let es := (if (e <? 0)%Z then "-" else "+") +:+ digitsOfN (Z.abs_N e) in
          if (k =? 1)%Z then ds +:+ "e" +:+ es
          else Str.take 1 ds +:+ "." +:+ Str.drop 1 ds +:+ "e" +:+ es
      in
      if neg then "-" +:+ body else body
  end.

(** An optional sign. *)
Definition readSign (s : string) : bool * string :=
  match s with
  | String c r =>
      if Ascii.eqb c "-"%char then (true, r)
      else if Ascii.eqb c "+"%char then (false, r)
      else (false, s)
  | EmptyString => (false, s)
  end.

Definition isExpMark (c : ascii) : bool :=
  Ascii.eqb c "e"%char || Ascii.eqb c "E"%char.

(** [ExponentPart], when one is there: its value and what follows. *)
Definition readExponent (s : string) : option (Z * string) :=
  match s with
  | String c r =>
      if isExpMark c then
        let (eneg, r1) := readSign r in
        let (ed, r2) := Str.span Str.isDigit r1 in
        if Str.isEmpty ed then None
        else Some (signed eneg (digitsToN ed), r2)
      else None
  | EmptyString => None
  end.

Definition scaleBy (neg : bool) (m : N) (scale : nat) (e : Z) : number :=
  if (0 <=? e)%Z then Fin neg (m * pow10 (Z.to_nat e))%N scale
  else Fin neg m (scale + Z.to_nat (- e)).

(** The longest prefix of [s] that is a [StrDecimalLiteral]: its value
    and what follows, or [None] when there is no such prefix. *)
Definition readDecimal (s : string) : option (number * string) :=
  let (neg, s0) := readSign s in
  if String.prefix "Infinity" s0 then Some (Inf neg, Str.drop 8 s0) else
  let (ip, s1) := Str.span Str.isDigit s0 in
  let (fp, s2) :=
    match s1 with
    | String c r =>
        if Ascii.eqb c "."%char then Str.span Str.isDigit r
        else (EmptyString, s1)
    | EmptyString => (EmptyString, s1)
    end in
  if Str.isEmpty ip && Str.isEmpty fp then None else
  let m := digitsToN (ip +:+ fp) in
  let scale := String.length fp in
  match readExponent s2 with
  | Some (e, s3) => Some (scaleBy neg m scale e, s3)
  | None => Some (Fin neg m scale, s2)
  end.

(** [parseFloat] on a string. *)
Definition parseFloatString (s : string) : number :=
  match readDecimal (Str.trimStart s) with
  | Some (x, _) => x
  | None => NaN
  end.

Definition isHexDigit (c : ascii) : bool :=
  Str.isDigit c
  || ((97 <=? Str.code c) && (Str.code c <=? 102))%N
  || ((65 <=? Str.code c) && (Str.code c <=? 70))%N.
Definition isOctDigit (c : ascii) : bool :=
  ((48 <=? Str.code c) && (Str.code c <=? 55))%N.
Definition isBinDigit (c : ascii) : bool :=
  ((48 <=? Str.code c) && (Str.code c <=? 49))%N.

(** [0x..], [0o..], [0b..]. *)
Definition isNonDecimalLiteral (s : string) : bool :=
  match s with
  | String z (String r ds) =>
      Ascii.eqb z "0"%char && negb (Str.isEmpty ds) &&
      (if Ascii.eqb (Str.lower r) "x"%char then Str.forallb isHexDigit ds
       else if Ascii.eqb (Str.lower r) "o"%char then Str.forallb isOctDigit ds
       else if Ascii.eqb (Str.lower r) "b"%char then Str.forallb isBinDigit ds
       else false)
  | _ => false
  end.

(** [!isNaN(s)] for a string [s]: whether [ToNumber(s)] is a number. *)
Definition stringIsNumeric (s : string) : bool :=
  let t := Str.trim s in
  if Str.isEmpty t then true
  else if isNonDecimalLiteral t then true
  else
    match readDecimal t with
    | Some (_, rest) => Str.isEmpty rest
    | None => false
    end.

(** Digits in groups of three, separated by commas. *)
Fixpoint group3_go (s : string) (k : nat) : string :=
  match s with
  | EmptyString => EmptyString
  | String c s' =>
      let rest := group3_go s' (k - 1) in
      if (Nat.eqb (k mod 3) 1) && negb (Str.isEmpty s')
      then String c ("," +:+ rest) else String c rest
  end.

Definition group3 (s : string) : string := group3_go s (String.length s).

(** [x.toLocaleString("en-US", {minimumFractionDigits: d,
    maximumFractionDigits: d})] for a finite [x]: rounded to [d]
    decimals, ties away from zero. *)
Definition formatFixed (neg : bool) (m : N) (scale d : nat) : string :=
  let scaled :=
    if (scale <=? d)%nat then (m * pow10 (d - scale))%N
    else
      let p := pow10 (scale - d) in
      (m / p + (if (p <=? 2 * (m mod p)) then 1 else 0))%N in
  let ip := (scaled / pow10 d)%N in
  let fp := (scaled mod pow10 d)%N in
  (if neg then "-" else "") +:+ group3 (digitsOfN ip) +:+
  (if (d =? 0)%nat then ""
   else "." +:+ Str.padStart0 d (digitsOfN fp)).

Definition toLocaleString (x : number) (d : nat) : result string :=
  if (100 <? d)%nat
  then Throw (RangeError "maximumFractionDigits value is out of range.")
  else Ok match x with
          | NaN => "NaN"
          | Inf neg => if neg then "-∞" else "∞"
          | Fin neg m scale => formatFixed neg m scale d
          end.

End Num.

(** ** Values of the data document *)

#[warnings="-register-all"]
Inductive jsval :=
| VUndefined
| VNull
| VBool (b : bool)
| VNum (x : number)
| VStr (s : string)
| VArr (items : list jsval)
| VObj (props : list (string * jsval)).

Module Js.

Definition isNullish (v : jsval) : bool :=
  match v with
  | VUndefined | VNull => true
  | _ => false
  end.

Definition isArray (v : jsval) : bool :=
  match v with
  | VArr _ => true
  | _ => false
  end.

(** [a ?? b]. *)
Definition coalesce (a b : jsval) : jsval :=
  if isNullish a then b else a.

(** A parameter declared [p = d]: [d] replaces a missing or
    [undefined] argument. *)
Definition defaultTo (d arg : jsval) : jsval :=
  match arg with
  | VUndefined => d
  | _ => arg
  end.

Definition truthy (v : jsval) : bool :=
  match v with
  | VUndefined | VNull => false
  | VBool b => b
  | VNum x => negb (Num.isNaN x || Num.isZero x)
  | VStr s => negb (Str.isEmpty s)
  | VArr _ | VObj _ => true
  end.

(** [String(v)]. *)
Fixpoint toStr (v : jsval) : string :=
  match v with
  | VUndefined => "undefined"
  | VNull => "null"
  | VBool b => if b then "true" else "false"
  | VNum x => Num.toString x
  | VStr s => s
  | VArr items =>
      Str.join ","
        (List.map (fun i => if isNullish i then "" else toStr i) items)
  | VObj _ => "[object Object]"
  end.

Definition parseFloat (v : jsval) : number := Num.parseFloatString (toStr v).

(** [a === b] where one side is a primitive: an array or an object is
    identical only to itself, hence to no primitive. *)
Definition strictEq (a b : jsval) : bool :=
  match a, b with
  | VUndefined, VUndefined => true
  | VNull, VNull => true
  | VBool x, VBool y => Bool.eqb x y
  | VNum x, VNum y => Num.eqb x y
  | VStr x, VStr y => String.eqb x y
  | _, _ => false
  end.

Fixpoint lookupProp (key : string) (props : list (string * jsval)) : jsval :=
  match props with
  | [] => VUndefined
  | (k, v) :: ps => if String.eqb k key then v else lookupProp key ps
  end.

(** A property key that is an array index: a decimal numeral without
    a leading zero. *)
Definition arrayIndex (key : string) : option nat :=
  if negb (Str.isEmpty key) && Str.forallb Str.isDigit key
     && ((String.length key =? 1)%nat || negb (String.prefix "0" key))
  then Some (N.to_nat (Num.digitsToN key)) else None.

(** [v[key]] on a value that is neither [null] nor [undefined], for the
    values [JSON.parse] returns: own properties of objects, elements and
    [length] of arrays and strings. A key that names a member inherited
    from a built-in prototype ([constructor], [toString], ...) reads
    [undefined] here, where JavaScript finds the inherited member: those
    members are functions, which [jsval] does not have, and a read through
    one of them can throw (as [constructor.caller] does). *)
Definition getProp (v : jsval) (key : string) : jsval :=
  match v with
  | VObj props => lookupProp key props
  | VArr items =>
      if String.eqb key "length" then VNum (Num.ofNat (length items))
      else match arrayIndex key with
           | Some i => nth i items VUndefined
           | None => VUndefined
           end
  | VStr s =>
      if String.eqb key "length" then VNum (Num.ofNat (String.length s))
      else match arrayIndex key with
           | Some i =>
               match String.get i s with
               | Some c => VStr (String c EmptyString)
               | None => VUndefined
               end
           | None => VUndefined
           end
  | _ => VUndefined
  end.

(** [v[key]]: reading a property of [null] or [undefined] throws. *)
Definition member (v : jsval) (key : string) : result jsval :=
  if isNullish v
  then Throw (TypeError ("Cannot read properties of " +:+ toStr v))
  else Ok (getProp v key).

End Js.

(** ** Path resolver ([getNestedValue]) *)

(** [pathStr.replace(/\[(\d+)\]/g, ".$1")], as a scan with one state:
    [pending] holds the digits read since an opening bracket. *)
Fixpoint replaceIndex_go (pending : option string) (s : string) : string :=
  match s with
  | EmptyString =>
      match pending with
      | None => EmptyString
      | Some ds => "[" +:+ ds
      end
  | String c s' =>
      let outside :=
        if Ascii.eqb c "["%char then replaceIndex_go (Some EmptyString) s'
        else String c (replaceIndex_go None s') in
      match pending with
      | None => outside
      | Some ds =>
          if Str.isDigit c then
            replaceIndex_go (Some (ds +:+ String c EmptyString)) s'
          else if Ascii.eqb c "]"%char && negb (Str.isEmpty ds) then
            "." +:+ ds +:+ replaceIndex_go None s'
          else "[" +:+ ds +:+ outside
      end
  end.

Definition replaceIndex (s : string) : string := replaceIndex_go None s.

Definition pathKeys (pathStr : string) : list string :=
  Str.split "." (replaceIndex pathStr).

(** The loop over the keys, and the final [value ?? defaultValue]. *)
Fixpoint walk (keys : list string) (value defaultValue : jsval)
  : result jsval :=
  match keys with
  | [] => Ok (Js.coalesce value defaultValue)
  | key :: keys' =>
      if Js.isNullish value then Ok defaultValue
      else
        let? value' := Js.member value key in
        walk keys' value' defaultValue
  end.

Definition wildcard : string := "[*]".

(** [getNestedValue], with the depth of its own calls bounded by
    [fuel]. *)
Fixpoint getNestedValue_rec (fuel : nat) (obj : jsval) (pathStr : string)
  (arg : jsval) : result jsval :=
  let defaultValue := Js.defaultTo VNull arg in
  if Str.isEmpty pathStr then Ok defaultValue
  else if Str.includes wildcard pathStr then
    match fuel with
    | O => Throw StackExhausted
    | S fuel' =>
        match Str.split wildcard pathStr with
        | arrayPath :: rest :: _ =>
            let? array := getNestedValue_rec fuel' obj arrayPath (VArr []) in
            match array with
            | VArr items =>
                let restPath :=
                  if Str.startsWith "." rest then Str.drop 1 rest else rest in
                let? mapped :=
                  mapR (fun item =>
                          if negb (Str.isEmpty restPath)
                          then getNestedValue_rec fuel' item restPath VUndefined
                          else Ok item) items in
                Ok (VArr mapped)
            | _ => Ok defaultValue
            end
        | _ => Throw (TypeError "Cannot read properties of undefined")
        end
    end
  else walk (pathKeys pathStr) obj defaultValue.

(** Each call of [getNestedValue] on itself is on a strictly shorter
    path, so the length of the path bounds the depth
    ([getNestedValue_unfold]). *)
Definition getNestedValue (obj : jsval) (pathStr : string) (arg : jsval)
  : result jsval :=
  getNestedValue_rec (String.length pathStr) obj pathStr arg.

(** The value the loop of the resolver holds after the reads of [keys],
    one after the other from [v], when every one of them was a read on a
    present value and returned. *)
Fixpoint readAlong (keys : list string) (v : jsval) : result jsval :=
  match keys with
  | [] => Ok v
  | key :: keys' =>
      let? v' := Js.member v key in
      readAlong keys' v'
  end.

(** ** Annotations *)

Record Position := {
  pos_x : Q;
  pos_y : Q;
  pos_width : Q;
  pos_height : Q
}.

(** [binding.fallback] is [VUndefined] when the annotation leaves it
    out; an absent [path] reads as the empty path. *)
Record Binding := {
  path : string;
  transform : option string;
  condition : option string;
  fallback : jsval
}.

(** The rendering options of a field; [field.format || {}] is [noFormat]
    when the annotation has none. *)
Record Format := {
  decimalPlaces : option nat;
  currencySymbol : bool;
  dateFormat : option string;
  fontSize : option Q;
  checkMark : option string;
  align : option string
}.

Definition noFormat : Format :=
  {| decimalPlaces := None; currencySymbol := false; dateFormat := None;
     fontSize := None; checkMark := None; align := None |}.

Record Field := {
  field_id : string;
  field_type : string;
  field_page : Z;
  field_position : Position;
  field_binding : Binding;
  field_format : Format;
  nativeFieldId : option string
}.

Record Annotation := { fields : list Field }.

(** [a || b] on an optional string: the empty string is falsy. *)
Definition orString (a : option string) (b : string) : string :=
  match a with
  | Some s => if Str.isEmpty s then b else s
  | None => b
  end.

(** Truthiness of [field.nativeFieldId]. *)
Definition hasNativeId (f : Field) : bool :=
  match nativeFieldId f with
  | Some s => negb (Str.isEmpty s)
  | None => false
  end.

Definition nativeId (f : Field) : string := orString (nativeFieldId f) "".

Definition isCheckbox (f : Field) : bool := String.eqb (field_type f) "checkbox".

(** ** Transform stage ([applyTransform]) *)

(** [parseFloat(v) || 0]. *)
Definition parseFloatOrZero (v : jsval) : number :=
  let x := Js.parseFloat v in
  if Num.isNaN x || Num.isZero x then Num.ofN 0 else x.

Definition applyTransform (value : jsval) (transform : option string) : jsval :=
  match transform with
  | None => value
  | Some t =>
      if Str.isEmpty t then value
      else if String.eqb t "uppercase" then VStr (Str.toUpperCase (Js.toStr value))
      else if String.eqb t "lowercase" then VStr (Str.toLowerCase (Js.toStr value))
      else if String.eqb t "trim" then VStr (Str.trim (Js.toStr value))
      else if String.eqb t "sum" then
        match value with
        | VArr items =>
            VNum (fold_left (fun sum v => Num.add sum (parseFloatOrZero v))
                    items (Num.ofN 0))
        | _ => value
        end
      else if String.eqb t "count" then
        match value with
        | VArr items => VNum (Num.ofNat (length items))
        | _ => VNum (Num.ofN 0)
        end
      else value
  end.

(** ** Value formatter ([formatValue]) *)

(** [new Date(value)] read back through [getFullYear()],
    [getMonth() + 1] and [getDate()] in the local time zone; [None] for
    an invalid date. Parsing and the time zone belong to the engine. *)
Class DateEngine := {
  parseDate : jsval -> option (Z * nat * nat)
}.

(** [value === null || value === undefined || value === ""]. *)
Definition isBlank (value : jsval) : bool :=
  match value with
  | VNull | VUndefined => true
  | VStr s => Str.isEmpty s
  | _ => false
  end.

Definition pad2 (n : nat) : string :=
  Str.padStart0 2 (Num.digitsOfN (N.of_nat n)).

Section Formatter.
Context `{DateEngine}.

Definition formatValue (value : jsval) (field : Field) : result jsval :=
  if isBlank value then Ok (VStr "")
  else
    let format := field_format field in
    let type := field_type field in
    if String.eqb type "currency" then
      let num := Js.parseFloat value in
      if Num.isNaN num then Ok (VStr "")
      else
        let decimals := default 2%nat (decimalPlaces format) in
        let? formatted := Num.toLocaleString num decimals in
        Ok (VStr (if currencySymbol format then "$" +:+ formatted
                  else formatted))
    else if String.eqb type "number" then
      let n := Js.parseFloat value in
      if Num.isNaN n then Ok (VStr "")
      else
        let? formatted :=
          Num.toLocaleString n (default 0%nat (decimalPlaces format)) in
        Ok (VStr formatted)
    else if String.eqb type "ssn" then
      let digits := Str.filter Str.isDigit (Js.toStr value) in
      if (String.length digits =? 9)%nat then
        Ok (VStr (Str.slice 0 3 digits +:+ "-" +:+ Str.slice 3 5 digits
                  +:+ "-" +:+ Str.drop 5 digits))
      else Ok (VStr digits)
    else if String.eqb type "ein" then
      let einDigits := Str.filter Str.isDigit (Js.toStr value) in
      if (String.length einDigits =? 9)%nat then
        Ok (VStr (Str.slice 0 2 einDigits +:+ "-" +:+ Str.drop 2 einDigits))
      else Ok (VStr einDigits)
    else if String.eqb type "date" then
      let dateFormat := orString (dateFormat format) "MM/DD/YYYY" in
      match parseDate value with
      | None => Ok (VStr (Js.toStr value))
      | Some (yyyy, month, day) =>
          Ok (VStr (Str.replaceFirst "YYYY" (Num.digitsOfZ yyyy)
                      (Str.replaceFirst "DD" (pad2 day)
                         (Str.replaceFirst "MM" (pad2 month) dateFormat))))
      end
    else if String.eqb type "checkbox" then
      Ok (VBool (Js.truthy value))
    else Ok (VStr (Js.toStr value)).

End Formatter.

(** ** Currency formatter of the 1040 script ([formatCurrency]) *)

Definition formatCurrency (value : jsval) : result string :=
  if isBlank value then Ok ""
  else
    let num := Js.parseFloat value in
    if Num.isNaN num || Num.eqb num (Num.ofN 0) then Ok ""
    else Num.toLocaleString num 2.

(** ** Condition evaluator ([evaluateCondition]) *)

(** The pattern [/^(.+?)\s*(===|!==|==|!=)\s*(.+)$/], matched the way a
    backtracking engine does. [matchExpected] is [\s*(.+)$]: the
    longest run of white space first, then shorter ones. *)
Fixpoint matchExpected (s : string) : option string :=
  let whole :=
    if negb (Str.isEmpty s) && Str.forallb (fun c => negb (Str.isLineTerminator c)) s
    then Some s else None in
  match s with
  | EmptyString => None
  | String c s' =>
      if Str.isSpace c then
        match matchExpected s' with
        | Some e => Some e
        | None => whole
        end
      else whole
  end.

Definition operators : list string := ["==="; "!=="; "=="; "!="].

(** The alternatives of the operator, in order, each followed by
    [\s*(.+)$]. *)
Fixpoint matchAlternatives (ops : list string) (s : string)
  : option (string * string) :=
  match ops with
  | [] => None
  | op :: ops' =>
      if String.prefix op s then
        match matchExpected (Str.drop (String.length op) s) with
        | Some e => Some (op, e)
        | None => matchAlternatives ops' s
        end
      else matchAlternatives ops' s
  end.

(** [\s*(===|!==|==|!=)\s*(.+)$] at [s]: no operator starts with white
    space, so only the longest run of [\s*] can be followed by one. *)
Definition matchOperator (s : string) : option (string * string) :=
  matchAlternatives operators (Str.dropWhile Str.isSpace s).

(** The lazy first group grows one character at a time. *)
Fixpoint matchCondition_go (group1 s : string)
  : option (string * string * string) :=
  match matchOperator s with
  | Some (op, e) => Some (group1, op, e)
  | None =>
      match s with
      | EmptyString => None
      | String c s' =>
          if Str.isLineTerminator c then None
          else matchCondition_go (group1 +:+ String c EmptyString) s'
      end
  end.

Definition matchCondition (s : string) : option (string * string * string) :=
  match s with
  | EmptyString => None
  | String c s' =>
      if Str.isLineTerminator c then None
      else matchCondition_go (String c EmptyString) s'
  end.

Definition parseExpected (expectedStr : string) : jsval :=
  let expected := Str.trim expectedStr in
  if String.eqb expected "true" then VBool true
  else if String.eqb expected "false" then VBool false
  else if String.eqb expected "null" then VNull
  else if Num.stringIsNumeric expected then VNum (Num.parseFloatString expected)
  else VStr expected.

Definition evaluateCondition (condition : option string) (data : jsval)
  : result bool :=
  match condition with
  | None => Ok true
  | Some cond =>
      if Str.isEmpty cond then Ok true
      else
        match matchCondition cond with
        | None => Ok true
        | Some (pathStr, operator, expectedStr) =>
            let? actualValue :=
              getNestedValue data (Str.trim pathStr) VUndefined in
            let expected := parseExpected expectedStr in
            if String.eqb operator "===" || String.eqb operator "==" then
              Ok (Js.strictEq actualValue expected)
            else if String.eqb operator "!==" || String.eqb operator "!=" then
              Ok (negb (Js.strictEq actualValue expected))
            else Ok true
        end
  end.

(** Whether the condition of a field holds on the data. *)
Definition isActive (data : jsval) (field : Field) : bool :=
  match evaluateCondition (condition (field_binding field)) data with
  | Ok b => b
  | Throw _ => false
  end.

(** ** The target document and the console *)

(** An interactive field of the document's form, as the document
    library (pdf-lib) presents it: a text field with its text and its
    [maxLength], a check box, or a field of another kind (radio group,
    dropdown, ...) named by its class. *)
Inductive AcroField :=
| TextField (text : option string) (maxLength : option nat)
| CheckBox (checked : bool)
| OtherField (kind : string).

(** The calls on the document that took effect. *)
Inductive Call :=
| DrawText (pageIndex : nat) (text : string) (x y size : Q)
| Check (name : string)
| SetText (name : string) (text : string).

(** The state a render works on: the form of the document, its number
    of pages, the calls made on it, and the lines written with
    [console.warn]. (The lines of [console.log] are left out.) *)
Record World := {
  form : gmap string AcroField;
  pageCount : nat;
  calls : list Call;
  warnings : list string
}.

(** The embedded font: text width at a size, and whether the font's
    encoding has every character of a text (measuring or drawing a text
    it cannot encode throws). *)
Class Font := {
  widthOfTextAtSize : string -> Q -> Q;
  canEncode : string -> bool
}.

Definition M (A : Type) : Type := World -> World * result A.

Definition ret {A} (a : A) : M A := fun w => (w, Ok a).

Definition bind {A B} (m : M A) (k : A -> M B) : M B :=
  fun w =>
    match m w with
    | (w', Ok a) => k a w'
    | (w', Throw e) => (w', Throw e)
    end.

Definition liftR {A} (r : result A) : M A := fun w => (w, r).

Definition throw {A} (e : exn) : M A := fun w => (w, Throw e).

(** [try { body } catch (err) { handler }]. *)
Definition tryCatch {A} (body : M A) (handler : exn -> M A) : M A :=
  fun w =>
    match body w with
    | (w', Ok a) => (w', Ok a)
    | (w', Throw e) => handler e w'
    end.

Notation "'let!' x ':=' m 'in' k" := (bind m (fun x => k))
  (at level 10, x name, m at level 100, k at level 200).
Notation "m ';;' k" := (bind m (fun _ => k))
  (at level 100, k at level 200, right associativity).

(** [err.message]. *)
Definition message (e : exn) : string :=
  match e with
  | TypeError msg | RangeError msg | PdfError msg => msg
  | StackExhausted => "Maximum call stack size exceeded"
  end.

Definition quote (s : string) : string :=
  let dq := String (ascii_of_N 34) EmptyString in dq +:+ s +:+ dq.

Definition kindName (f : AcroField) : string :=
  match f with
  | TextField _ _ => "PDFTextField"
  | CheckBox _ => "PDFCheckBox"
  | OtherField kind => kind
  end.

Definition noSuchField (name : string) : exn :=
  PdfError ("PDFDocument has no form field with the name " +:+ quote name).

Definition unexpectedFieldType (name expected : string) (f : AcroField) : exn :=
  PdfError ("Expected field " +:+ quote name +:+ " to be of type " +:+ expected
            +:+ ", but it is actually of type " +:+ kindName f).

Definition exceededMaxLength (len max : nat) (name : string) : exn :=
  PdfError ("Attempted to set text with length="
            +:+ Num.digitsOfN (N.of_nat len)
            +:+ " for TextField with maxLength="
            +:+ Num.digitsOfN (N.of_nat max) +:+ " and name=" +:+ name).

Definition cannotEncode (text : string) : exn :=
  PdfError ("WinAnsi cannot encode a character of " +:+ quote text).

Definition addWarning (msg : string) (w : World) : World :=
  {| form := form w; pageCount := pageCount w; calls := calls w;
     warnings := warnings w ++ [msg] |}.

(** The world after the call [c], which leaves the form as [fm]. *)
Definition addCall (c : Call) (fm : gmap string AcroField) (w : World) : World :=
  {| form := fm; pageCount := pageCount w; calls := calls w ++ [c];
     warnings := warnings w |}.

(** [console.warn(msg)]. *)
Definition warn (msg : string) : M unit := fun w => (addWarning msg w, Ok tt).

Definition record (c : Call) (fm : gmap string AcroField) : M unit :=
  fun w => (addCall c fm w, Ok tt).

(** [form.getCheckBox(name)]: throws when the form has no field of
    that name, or one that is not a check box. *)
Definition getCheckBox (name : string) : M unit :=
  fun w =>
    match form w !! name with
    | None => (w, Throw (noSuchField name))
    | Some (CheckBox _) => (w, Ok tt)
    | Some f => (w, Throw (unexpectedFieldType name "PDFCheckBox" f))
    end.

(** [checkbox.check()] on the check box [name]. *)
Definition check (name : string) : M unit :=
  fun w => record (Check name) (<[name := CheckBox true]> (form w)) w.

(** [form.getTextField(name)], likewise; the result is the field's
    [maxLength]. *)
Definition getTextField (name : string) : M (option nat) :=
  fun w =>
    match form w !! name with
    | None => (w, Throw (noSuchField name))
    | Some (TextField _ maxLength) => (w, Ok maxLength)
    | Some f => (w, Throw (unexpectedFieldType name "PDFTextField" f))
    end.

(** [textField.setText(text)] on the text field [name]: throws when
    the text is longer than [maxLength]. *)
Definition setText (name : string) (maxLength : option nat) (text : string)
  : M unit :=
  fun w =>
    match maxLength with
    | Some max =>
        if (max <? String.length text)%nat
        then (w, Throw (exceededMaxLength (String.length text) max name))
        else record (SetText name text)
               (<[name := TextField (if Str.isEmpty text then None else Some text)
                            maxLength]> (form w)) w
    | None =>
        record (SetText name text)
          (<[name := TextField (if Str.isEmpty text then None else Some text)
                       maxLength]> (form w)) w
    end.

(** [pages[page - 1]]: the index of the page when there is one. *)
Definition getPage (page : Z) : M (option nat) :=
  fun w =>
    (w, Ok (if (1 <=? page)%Z && (page <=? Z.of_nat (pageCount w))%Z
            then Some (Z.to_nat (page - 1)) else None)).

(** [options.useNativeFields] is [VUndefined] when the caller leaves it
    out. *)
Record Options := { useNativeFields : jsval }.

Definition noOptions : Options := {| useNativeFields := VUndefined |}.

Section Render.
Context `{DateEngine} `{Font}.

(** [font.widthOfTextAtSize(text, size)]. *)
Definition measureText (text : string) (size : Q) : M Q :=
  if canEncode text then ret (widthOfTextAtSize text size)
  else throw (cannotEncode text).

(** [page.drawText(text, {x, y, size, font, color})]. *)
Definition drawText (pageIndex : nat) (text : string) (x y size : Q)
  : M unit :=
  if canEncode text
  then fun w => record (DrawText pageIndex text x y size) (form w) w
  else throw (cannotEncode text).

(** [format.fontSize || 10]. *)
Definition fontSizeOf (format : Format) : Q :=
  match fontSize format with
  | Some q => if Qeq_bool q 0 then 10%Q else q
  | None => 10%Q
  end.

(** Resolver, transform and formatter for one field. *)
Definition formattedValueOf (data : jsval) (field : Field) : M jsval :=
  let binding := field_binding field in
  let! value := liftR (getNestedValue data (path binding) (fallback binding)) in
  let value := applyTransform value (transform binding) in
  liftR (formatValue value field).

(** The placement of [fillWithCoordinates], once the page is found: a
    mark for a check box whose value is [true], the text otherwise. *)
Definition drawField (pageIndex : nat) (field : Field)
  (formattedValue : jsval) (filledCount : nat) : M nat :=
  let pos := field_position field in
  let format := field_format field in
  let fontSize := fontSizeOf format in
  if isCheckbox field then
    if Js.strictEq formattedValue (VBool true) then
      let checkMark := orString (checkMark format) "X" in
      let centerX := (pos_x pos + pos_width pos / 2)%Q in
      let centerY := (pos_y pos + pos_height pos / 2)%Q in
      drawText pageIndex checkMark
        (centerX - fontSize / 4)%Q (centerY - fontSize / 3)%Q fontSize ;;
      ret (S filledCount)
    else ret filledCount
  else
    let text := Js.toStr formattedValue in
    let! textWidth := measureText text fontSize in
    let textX :=
      if String.eqb (orString (align format) "") "right" then
        (pos_x pos + pos_width pos - textWidth - 2)%Q
      else if String.eqb (orString (align format) "") "center" then
        (pos_x pos + (pos_width pos - textWidth) / 2)%Q
      else (pos_x pos + 2)%Q in
    drawText pageIndex text textX
      (pos_y pos + (pos_height pos - fontSize) / 2)%Q fontSize ;;
    ret (S filledCount).

(** The body of the loop of [fillWithCoordinates]. *)
Definition coordinateStep (data : jsval) (filledCount : nat) (field : Field)
  : M nat :=
  let! active :=
    liftR (evaluateCondition (condition (field_binding field)) data) in
  if negb active then ret filledCount
  else
    let! formattedValue := formattedValueOf data field in
    if Js.strictEq formattedValue (VStr "") && negb (isCheckbox field)
    then ret filledCount
    else
      let! page := getPage (field_page field) in
      match page with
      | None =>
          warn ("Page " +:+ Num.digitsOfZ (field_page field)
                +:+ " not found for field " +:+ field_id field) ;;
          ret filledCount
      | Some pageIndex => drawField pageIndex field formattedValue filledCount
      end.

(** [for (const field of fields) { ... }] over an accumulator. *)
Fixpoint forEach {A} (step : A -> Field -> M A) (acc : A) (fs : list Field)
  : M A :=
  match fs with
  | [] => ret acc
  | field :: fs' =>
      let! acc' := step acc field in
      forEach step acc' fs'
  end.

Definition fillWithCoordinates (annotation : Annotation) (data : jsval)
  : M nat :=
  forEach (coordinateStep data) 0%nat (fields annotation).

(** [String(formattedValue).replace(/-/g, "")]. *)
Definition stripDashes (s : string) : string :=
  Str.filter (fun c => negb (Ascii.eqb c "-"%char)) s.

(** The [try] statement of [fillWithNativeFields] and its [catch]. *)
Definition tryPlaceNative (field : Field) (formattedValue : jsval)
  (counts : nat * nat) : M (nat * nat) :=
  let (filledCount, fallbackCount) := counts in
  tryCatch
    (if isCheckbox field then
       if Js.strictEq formattedValue (VBool true) then
         getCheckBox (nativeId field) ;;
         check (nativeId field) ;;
         ret (S filledCount, fallbackCount)
       else ret counts
     else
       let! maxLength := getTextField (nativeId field) in
       let valueToSet :=
         if String.eqb (field_type field) "ssn"
         then stripDashes (Js.toStr formattedValue)
         else Js.toStr formattedValue in
       setText (nativeId field) maxLength valueToSet ;;
       ret (S filledCount, fallbackCount))
    (fun err =>
       warn ("Could not fill native field " +:+ nativeId field +:+ ": "
             +:+ message err) ;;
       ret counts).

(** The body of the loop of [fillWithNativeFields], over the pair
    [(filledCount, fallbackCount)]. *)
Definition nativeStep (data : jsval) (counts : nat * nat) (field : Field)
  : M (nat * nat) :=
  let (filledCount, fallbackCount) := counts in
  let! active :=
    liftR (evaluateCondition (condition (field_binding field)) data) in
  if negb active then ret counts
  else if negb (hasNativeId field) then ret (filledCount, S fallbackCount)
  else
    let! formattedValue := formattedValueOf data field in
    if Js.strictEq formattedValue (VStr "") && negb (isCheckbox field)
    then ret counts
    else tryPlaceNative field formattedValue counts.

(** The object [{ filledCount, fallbackCount }]: property names and
    counts. *)
Definition nativeResult (counts : nat * nat) : gmap string nat :=
  <["fallbackCount" := snd counts]> (<["filledCount" := fst counts]> ∅).

Definition fillWithNativeFields (annotation : Annotation) (data : jsval)
  : M (gmap string nat) :=
  let! counts := forEach (nativeStep data) (0%nat, 0%nat) (fields annotation) in
  ret (nativeResult counts).

(** [render] once the document, the annotation and the data are
    loaded, up to the saving of the document. *)
Definition render (annotation : Annotation) (data : jsval)
  (options : Options) : M (gmap string nat) :=
  let hasNativeFields := existsb hasNativeId (fields annotation) in
  let useNative :=
    negb (Js.strictEq (useNativeFields options) (VBool false))
    && hasNativeFields in
  if useNative then
    let! result := fillWithNativeFields annotation data in
    if (0 <? result !!! "fallbackCount")%nat then
      let nonNativeAnnotation :=
        {| fields := List.filter (fun f => negb (hasNativeId f))
                       (fields annotation) |} in
      let! coordCount := fillWithCoordinates nonNativeAnnotation data in
      ret (<["filledCount" := (result !!! "filledCount" + coordCount)%nat]>
             result)
    else ret result
  else
    let! filledCount := fillWithCoordinates annotation data in
    ret (<["filledCount" := filledCount]> ∅).

End Render.

(** ** The 1040 script *)

Module Form1040.

(** [formatSSN]: digits only, nine at most. *)
Definition formatSSN (ssn : jsval) : string :=
  if negb (Js.truthy ssn) then ""
  else Str.take 9 (Str.filter Str.isDigit (Js.toStr ssn)).

(** [getNestedValue] of the script: keys separated by dots, no index and
    no wildcard. *)
Definition getNestedValue (obj : jsval) (path : string) (arg : jsval)
  : result jsval :=
  walk (Str.split "." path) obj (Js.defaultTo VNull arg).

(** [v?.key]. *)
Definition optional (v : jsval) (key : string) : jsval :=
  if Js.isNullish v then VUndefined else Js.getProp v key.

(** [getCheckboxValues]: the properties of the object it builds, in the
    order they are set. *)
Definition getCheckboxValues (data : jsval) : result (list (string * bool)) :=
  let? homeInUS := Js.member data "homeInUS" in
  let home :=
    if Js.truthy (optional homeInUS "taxpayer") then [("homeInUS", true)]
    else [] in
  let? filingStatus := Js.member data "filingStatus" in
  let status :=
    if Js.truthy filingStatus then
      if Js.truthy (Js.getProp filingStatus "single")
      then [("filingStatus.single", true)]
      else if Js.truthy (Js.getProp filingStatus "marriedJoint")
      then [("filingStatus.marriedJoint", true)]
      else if Js.truthy (Js.getProp filingStatus "marriedSeparate")
      then [("filingStatus.marriedSeparate", true)]
      else if Js.truthy (Js.getProp filingStatus "headOfHousehold")
      then [("filingStatus.headOfHousehold", true)]
      else if Js.truthy (Js.getProp filingStatus "qualifyingSurvivingSpouse")
      then [("filingStatus.qualifyingSurvivingSpouse", true)]
      else []
    else [] in
  let? digitalAssets := Js.member data "digitalAssets" in
  let assets :=
    if Js.strictEq (optional digitalAssets "hasActivity") (VBool true)
    then [("digitalAssets.yes", true)]
    else if Js.strictEq (optional digitalAssets "hasActivity") (VBool false)
    then [("digitalAssets.no", true)]
    else [] in
  let? campaign := Js.member data "presidentialElectionCampaign" in
  let you :=
    if Js.truthy (optional campaign "taxpayer")
    then [("presidentialCampaign.you", true)] else [] in
  let spouse :=
    if Js.truthy (optional campaign "spouse")
    then [("presidentialCampaign.spouse", true)] else [] in
  Ok (home ++ status ++ assets ++ you ++ spouse).

(** [for (const entry of entries) { ... }] over an accumulator. *)
Fixpoint forEachEntry {A B} (step : A -> B -> M A) (acc : A) (entries : list B)
  : M A :=
  match entries with
  | [] => ret acc
  | entry :: entries' =>
      let! acc' := step acc entry in
      forEachEntry step acc' entries'
  end.

(** The body of the first loop of [fillForm], over the pair
    [(filledCount, errorCount)]; [textFields] is
    [FIELD_MAPPING.textFields], the table of the annotation file the
    script loads. *)
Definition fillTextStep (textFields : gmap string string)
  (counts : nat * nat) (entry : string * jsval) : M (nat * nat) :=
  let (filledCount, errorCount) := counts in
  let (dataPath, value) := entry in
  if negb (Js.truthy value) then ret counts
  else
    let fieldId := orString (textFields !! dataPath) "" in
    if Str.isEmpty fieldId then ret counts
    else
      tryCatch
        (let! maxLength := getTextField fieldId in
         setText fieldId maxLength (Js.toStr value) ;;
         ret (S filledCount, errorCount))
        (fun err =>
           warn ("Could not set field " +:+ dataPath +:+ " (" +:+ fieldId
                 +:+ "): " +:+ message err) ;;
           ret (filledCount, S errorCount)).

(** The first loop of [fillForm]. *)
Definition fillTextFields (textFields : gmap string string)
  (fieldValues : list (string * jsval)) : M (nat * nat) :=
  forEachEntry (fillTextStep textFields) (0, 0)%nat fieldValues.

End Form1040.

(** ** Vocabulary of the properties of a render *)

(** The number [-0]. *)
Definition isNegativeZero (x : number) : bool :=
  match x with
  | Fin true m _ => (m =? 0)%N
  | _ => false
  end.

(** The running total of the [sum] transform. *)
Definition sumOf (items : list jsval) : number :=
  fold_left (fun sum v => Num.add sum (parseFloatOrZero v)) items (Num.ofN 0).

(** A character of a path operand of a condition: no white space and
    no character of an operator. *)
Definition isOperandChar (c : ascii) : bool :=
  negb (Str.isSpace c || Ascii.eqb c "="%char || Ascii.eqb c "!"%char).

Definition cleanPath (s : string) : bool :=
  negb (Str.isEmpty s) && Str.forallb isOperandChar s.

(** A literal of a condition: on one line, starting with a character
    that is not white space. *)
Definition cleanLiteral (s : string) : bool :=
  match s with
  | EmptyString => false
  | String c _ =>
      negb (Str.isSpace c)
      && Str.forallb (fun c => negb (Str.isLineTerminator c)) s
  end.

(** What a render cannot change of a form field: its kind and, for a
    text field, its [maxLength]. *)
Definition shape (f : AcroField) : AcroField :=
  match f with
  | TextField _ maxLength => TextField None maxLength
  | CheckBox _ => CheckBox false
  | OtherField kind => OtherField kind
  end.

(** [w'] has the fields of [w], each with the shape it had. *)
Definition SameShape (w w' : World) : Prop :=
  forall name, shape <$> form w' !! name = shape <$> form w !! name.

(** An entry of the field values that the text loop of the 1040 script
    tries to set: a truthy value whose path the mapping knows. *)
Definition mapped (textFields : gmap string string) (entry : string * jsval)
  : bool :=
  Js.truthy entry.2 && negb (Str.isEmpty (orString (textFields !! entry.1) "")).

Definition isSetText (c : Call) : Prop :=
  match c with
  | SetText _ _ => True
  | _ => False
  end.

(** What [getCheckboxValues] promises of the boxes it returns: no key
    twice, every value [true], one filing status at most, and not both
    answers on digital assets. *)
Definition exclusiveBoxes (boxes : list (string * bool)) : Prop :=
  NoDup (map fst boxes)
  /\ Forall (fun box => snd box = true) boxes
  /\ (length (List.filter (fun box => Str.startsWith "filingStatus." (fst box))
                boxes) <= 1)%nat
  /\ ~ (In "digitalAssets.yes" (map fst boxes)
        /\ In "digitalAssets.no" (map fst boxes)).

(** Whether a text is within the [maxLength] of a text field. *)
Definition fits (maxLength : option nat) (text : string) : bool :=
  match maxLength with
  | Some max => (String.length text <=? max)%nat
  | None => true
  end.

(** The field without its condition. *)
Definition unconditional (field : Field) : Field :=
  {| field_id := field_id field; field_type := field_type field;
     field_page := field_page field; field_position := field_position field;
     field_binding :=
       {| path := path (field_binding field);
          transform := transform (field_binding field);
          condition := None;
          fallback := fallback (field_binding field) |};
     field_format := field_format field;
     nativeFieldId := nativeFieldId field |}.

Section RenderVocabulary.
Context `{DateEngine} `{Font}.

(** The formatted value of a field: resolver, transform, formatter. *)
Definition formattedResult (data : jsval) (field : Field) : result jsval :=
  let? value :=
    getNestedValue data (path (field_binding field))
      (fallback (field_binding field)) in
  formatValue (applyTransform value (transform (field_binding field))) field.

(** The four outcomes of the [try] statement. *)
Inductive NativeOutcome (field : Field) (fv : jsval) (w : World)
  : World -> bool -> Prop :=
| NativeNothing :
    isCheckbox field = true -> Js.strictEq fv (VBool true) = false ->
    NativeOutcome field fv w w false
| NativeChecked c :
    isCheckbox field = true -> Js.strictEq fv (VBool true) = true ->
    form w !! nativeId field = Some (CheckBox c) ->
    NativeOutcome field fv w
      (addCall (Check (nativeId field))
         (<[nativeId field := CheckBox true]> (form w)) w) true
| NativeTextSet old maxLength text :
    isCheckbox field = false ->
    form w !! nativeId field = Some (TextField old maxLength) ->
    text = (if String.eqb (field_type field) "ssn"
            then stripDashes (Js.toStr fv) else Js.toStr fv) ->
    NativeOutcome field fv w
      (addCall (SetText (nativeId field) text)
         (<[nativeId field :=
              TextField (if Str.isEmpty text then None else Some text)
                maxLength]> (form w)) w) true
| NativeFailed e :
    (isCheckbox field = true -> Js.strictEq fv (VBool true) = true) ->
    NativeOutcome field fv w
      (addWarning ("Could not fill native field " +:+ nativeId field +:+ ": "
                   +:+ message e) w) false.

(** What one step of the native pass does to the world and to the
    counts, whatever the counts are. *)
Inductive NativeStep (data : jsval) (field : Field) (w : World)
  : World -> result (nat * nat) -> Prop :=
| StepInactive :
    isActive data field = false ->
    NativeStep data field w w (Ok (0, 0)%nat)
| StepFallback :
    isActive data field = true -> hasNativeId field = false ->
    NativeStep data field w w (Ok (0, 1)%nat)
| StepThrow e :
    isActive data field = true -> hasNativeId field = true ->
    formattedResult data field = Throw e ->
    NativeStep data field w w (Throw e)
| StepEmpty fv :
    isActive data field = true -> hasNativeId field = true ->
    formattedResult data field = Ok fv ->
    Js.strictEq fv (VStr "") && negb (isCheckbox field) = true ->
    NativeStep data field w w (Ok (0, 0)%nat)
| StepAttempt fv w' placed :
    isActive data field = true -> hasNativeId field = true ->
    formattedResult data field = Ok fv ->
    Js.strictEq fv (VStr "") && negb (isCheckbox field) = false ->
    NativeOutcome field fv w w' placed ->
    NativeStep data field w w' (Ok (if placed then 1 else 0, 0)%nat).

Definition addCounts (counts : nat * nat) (r : result (nat * nat))
  : result (nat * nat) :=
  match r with
  | Ok d => Ok (fst counts + fst d, snd counts + snd d)%nat
  | Throw e => Throw e
  end.

(** [w'] is [w] after at most [n] more calls, all of them in [P]. *)
Definition CallsAdded (P : Call -> Prop) (n : nat) (w w' : World) : Prop :=
  exists l, calls w' = calls w ++ l /\ Forall P l /\ (length l <= n)%nat.


Definition isDrawCall (c : Call) : Prop :=
  match c with
  | DrawText _ _ _ _ _ => True
  | Check _ | SetText _ _ => False
  end.

(** A check box that is checked stays checked. *)
Definition KeepsChecked (w w' : World) : Prop :=
  forall name,
    form w !! name = Some (CheckBox true) ->
    form w' !! name = Some (CheckBox true).

(** The fields without a native identifier whose condition holds. *)
Definition activeLacking (data : jsval) (fs : list Field) : nat :=
  length (List.filter (fun f => negb (hasNativeId f) && isActive data f) fs).

(** The native pass over the fields that have a native identifier,
    then the coordinate pass over the fields that have none. *)
Definition twoPasses (data : jsval) (fs : list Field) : M (gmap string nat) :=
  let! counts :=
    forEach (nativeStep data) (0, 0)%nat (List.filter hasNativeId fs) in
  let! coordCount :=
    forEach (coordinateStep data) 0%nat
      (List.filter (fun f => negb (hasNativeId f)) fs) in
  ret (nativeResult (fst counts + coordCount, activeLacking data fs)%nat).

Definition useNative (annotation : Annotation) (options : Options) : bool :=
  negb (Js.strictEq (useNativeFields options) (VBool false))
  && existsb hasNativeId (fields annotation).


End RenderVocabulary.

(** ** A concrete engine and font, for the scenarios *)

Module Scenario.

(** An engine on which no value parses as a date. *)
Definition noDates : DateEngine := {| parseDate := fun _ => None |}.

Definition isPrintable (c : ascii) : bool :=
  ((32 <=? Str.code c) && (Str.code c <=? 126))%N.

(** A fixed-pitch font of printable ASCII: every glyph is 0.6 em
    wide. *)
Definition monoFont : Font :=
  {| widthOfTextAtSize := fun text size =>
       (inject_Z (Z.of_nat (String.length text)) * (6 # 10) * size)%Q;
     canEncode := Str.forallb isPrintable |}.

Definition num (m : N) (scale : nat) : jsval := VNum (Fin false m scale).

Definition onePage : World :=
  {| form := ∅; pageCount := 1; calls := []; warnings := [] |}.

Definition rect : Position :=
  {| pos_x := 504; pos_y := 330; pos_width := 72; pos_height := 12 |}.

Definition bindTo (p : string) : Binding :=
  {| path := p; transform := None; condition := None;
     fallback := VUndefined |}.

Definition field (id type p : string) (format : Format)
  (native : option string) : Field :=
  {| field_id := id; field_type := type; field_page := 1;
     field_position := rect; field_binding := bindTo p;
     field_format := format; nativeFieldId := native |}.

Definition alignRight : Format :=
  {| decimalPlaces := None; currencySymbol := false; dateFormat := None;
     fontSize := None; checkMark := None; align := Some "right" |}.

(** [{income: {total: 57890.5}}]. *)
Definition incomeData : jsval :=
  VObj [("income", VObj [("total", num 578905 1)])].

(** [{a: [{b: 1}, {b: 2}, {}]}]. *)
Definition wildcardData : jsval :=
  VObj [("a", VArr [VObj [("b", num 1 0)]; VObj [("b", num 2 0)]; VObj []])].

Definition render0 := @render noDates monoFont.

(** One currency field with a native identifier the document does not
    have, one check box without native identifier. *)
Definition mixedAnnotation : Annotation :=
  {| fields :=
       [field "line9" "currency" "income.total" alignRight (Some "f1_47");
        field "hasIncome" "checkbox" "income.total" noFormat None] |}.

(** A check box whose condition has no operator. *)
Definition malformedField : Field :=
  {| field_id := "single"; field_type := "checkbox"; field_page := 1;
     field_position := rect;
     field_binding := {| path := "filingStatus.single"; transform := None;
                         condition := Some "filingStatus.single";
                         fallback := VUndefined |};
     field_format := noFormat; nativeFieldId := None |}.

Definition checkedWorld : World :=
  {| form := <["c1_1" := CheckBox true]> ∅; pageCount := 1; calls := [];
     warnings := [] |}.

Definition uncheckedField : Field :=
  field "single" "checkbox" "filingStatus.single" noFormat (Some "c1_1").

(** [{digitalAssets: {hasActivity: true}}]. *)
Definition activityData : jsval :=
  VObj [("digitalAssets", VObj [("hasActivity", VBool true)])].

(** A document with one text field of nine characters at most. *)
Definition ssnWorld : World :=
  {| form := <["f1_06" := TextField None (Some 9%nat)]> ∅; pageCount := 2;
     calls := []; warnings := [] |}.


(** A document without pages. *)
Definition noPages : World :=
  {| form := ∅; pageCount := 0; calls := []; warnings := [] |}.

(** [{taxpayer: {ssn: "123-45-6789"}}]. *)
Definition taxpayerData : jsval :=
  VObj [("taxpayer", VObj [("ssn", VStr "123-45-6789")])].

Definition ssnField : Field :=
  field "ssn" "ssn" "taxpayer.ssn" noFormat (Some "f1_06").

Definition coordinatesOnly : Options := {| useNativeFields := VBool false |}.

End Scenario.

(** * Properties *)

#[local] Arguments String.append !s1 s2 : simpl nomatch.

(** ** Strings *)

Module StrFacts.
Import Str.

Lemma prefix_length p s :
  String.prefix p s = true -> (String.length p <= String.length s)%nat.
Proof.
  revert s. induction p as [|a p IH]; intros [|b s]; simpl; try lia; try discriminate.
  destruct (ascii_dec a b); [|discriminate].
  intros Hp. apply IH in Hp. lia.
Qed.

Lemma prefix_append p r : String.prefix p (p +:+ r) = true.
Proof.
  induction p as [|a p IH]; simpl; [destruct r; reflexivity|].
  destruct (ascii_dec a a); [assumption|congruence].
Qed.

Lemma prefix_nil s : String.prefix "" s = true.
Proof. destruct s; reflexivity. Qed.

Lemma prefix_cons a p b s :
  String.prefix (String a p) (String b s) = Ascii.eqb a b && String.prefix p s.
Proof.
  cbn [String.prefix]. destruct (ascii_dec a b) as [->|Hn].
  - rewrite Ascii.eqb_refl. reflexivity.
  - apply Ascii.eqb_neq in Hn. rewrite Hn. reflexivity.
Qed.

Lemma includes_prefix_false needle s :
  includes needle s = false -> String.prefix needle s = false.
Proof. destruct s; simpl; intros Hi; apply orb_false_elim in Hi; tauto. Qed.

Lemma includes_of_prefix needle s :
  String.prefix needle s = true -> includes needle s = true.
Proof. destruct s; cbn [includes]; intros ->; reflexivity. Qed.

Lemma includes_append needle p r :
  includes needle (p +:+ needle +:+ r) = true.
Proof.
  induction p as [|c p IH].
  - simpl. apply includes_of_prefix, prefix_append.
  - change (String c p +:+ needle +:+ r) with (String c (p +:+ needle +:+ r)).
    cbn [includes]. rewrite IH. apply orb_true_r.
Qed.

Lemma includes_dropWhile needle q s :
  includes needle s = false -> includes needle (dropWhile q s) = false.
Proof.
  induction s as [|c s IH]; simpl; [tauto|].
  intros Hi. destruct (q c).
  - apply IH. apply orb_false_elim in Hi. tauto.
  - simpl. exact Hi.
Qed.

Lemma isEmpty_append_false p sep r :
  isEmpty sep = false -> isEmpty (p +:+ sep +:+ r) = false.
Proof. destruct p; simpl; [|reflexivity]. destruct sep; simpl; congruence. Qed.

Lemma length_drop n s : (String.length (drop n s) <= String.length s)%nat.
Proof.
  revert s. induction n as [|n IH]; intros [|c s]; simpl; try lia.
  specialize (IH s). lia.
Qed.

Lemma split_go_length sep s :
  isEmpty sep = false ->
  forall k, piecesLength sep (split_go sep k s) = (String.length s - k)%nat.
Proof.
  intros Hsep.
  induction s as [|c s IH]; intros k; [reflexivity|].
  cbn [split_go String.length].
  destruct k as [|k]; [|rewrite IH; lia].
  destruct (String.prefix sep (String c s)) eqn:Hp.
  - apply prefix_length in Hp. cbn [String.length] in Hp.
    specialize (IH (String.length sep - 1)%nat).
    destruct (split_go sep (String.length sep - 1) s) as [p ps].
    unfold piecesLength in *. cbn [fst snd List.map list_sum String.length] in *.
    destruct sep as [|a sep]; [discriminate|].
    unfold list_sum in *. cbn [String.length fold_right] in *. lia.
  - specialize (IH 0%nat).
    destruct (split_go sep 0 s) as [p ps].
    unfold piecesLength in *. cbn [fst snd String.length] in *. lia.
Qed.

Lemma split_two_length sep s a b r :
  isEmpty sep = false ->
  split sep s = a :: b :: r ->
  (String.length a + String.length sep + String.length b <= String.length s)%nat.
Proof.
  unfold split. intros Hsep Hs.
  pose proof (split_go_length sep s Hsep 0) as Hl.
  destruct (split_go sep 0 s) as [p ps]. injection Hs as -> ->.
  unfold piecesLength in Hl. simpl in Hl. lia.
Qed.

Lemma split_go_includes sep s :
  isEmpty sep = false -> includes sep s = true ->
  exists p q qs, split_go sep 0 s = (p, q :: qs).
Proof.
  intros Hsep. induction s as [|c s IH]; cbn [split_go includes].
  - destruct sep; simpl in *; discriminate.
  - intros Hi. destruct (String.prefix sep (String c s)) eqn:Hp.
    + destruct (split_go sep (String.length sep - 1) s) as [p ps]. eauto.
    + cbn [orb] in Hi. destruct (IH Hi) as (p & q & qs & ->). eauto.
Qed.

Lemma split_includes sep s :
  isEmpty sep = false -> includes sep s = true ->
  exists a b r, split sep s = a :: b :: r.
Proof.
  intros Hsep Hi. destruct (split_go_includes sep s Hsep Hi) as (p & q & qs & E).
  unfold split. rewrite E. eauto.
Qed.

Lemma split_go_skip sep x r :
  split_go sep (String.length x) (x +:+ r) = split_go sep 0 r.
Proof.
  induction x as [|c x IH]; simpl; [|exact IH].
  destruct r; reflexivity.
Qed.


(** The marker [[*]] does not overlap itself: in [p[*]r], where [p] has
    no marker, the first marker is the one written. *)
Lemma split_go_wildcard p r :
  includes "[*]" p = false ->
  split_go "[*]" 0 (p +:+ "[*]" +:+ r)
  = (p, let (q, qs) := split_go "[*]" 0 r in q :: qs).
Proof.
  induction p as [|c p IH]; intros Hi.
  - pose proof (prefix_append "[*]" r) as Hp.
    pose proof (split_go_skip "[*]" "*]" r) as Hs.
    change ("[*]" +:+ r) with (String "[" ("*]" +:+ r)) in Hp.
    change (EmptyString +:+ "[*]" +:+ r) with (String "[" ("*]" +:+ r)).
    cbn [split_go]. rewrite Hp.
    change (String.length "[*]" - 1)%nat with (String.length "*]").
    rewrite Hs. destruct (split_go "[*]" 0 r); reflexivity.
  - cbn [includes] in Hi. apply orb_false_elim in Hi as [Hp Hi].
    change (String c p +:+ "[*]" +:+ r) with (String c (p +:+ "[*]" +:+ r)).
    cbn [split_go].
    assert (Hp' : String.prefix "[*]" (String c (p +:+ "[*]" +:+ r)) = false).
    { clear IH Hi. revert Hp.
      destruct p as [|d [|e p]]; cbn [String.append];
        rewrite ?prefix_cons, ?prefix_nil.
      - intros _. destruct (Ascii.eqb "[" c); reflexivity.
      - intros _. destruct (Ascii.eqb "[" c), (Ascii.eqb "*" d); reflexivity.
      - intros Hp. exact Hp. }
    rewrite Hp', (IH Hi). reflexivity.
Qed.


Lemma prefix3_prefix2 a b c s :
  String.prefix (String a (String b EmptyString)) s = false ->
  String.prefix (String a (String b (String c EmptyString))) s = false.
Proof.
  destruct s as [|x [|y s]]; [reflexivity| |]; rewrite !prefix_cons.
  - intros _. cbn [String.prefix]. rewrite andb_false_r. reflexivity.
  - rewrite prefix_nil.
    destruct (Ascii.eqb a x), (Ascii.eqb b y); cbn [andb];
      intros Hp; discriminate || reflexivity.
Qed.

End StrFacts.

(** ** Path resolver *)

Lemma rbind_Ok {A B} (r : result A) (k : A -> result B) b :
  rbind r k = Ok b -> exists a, r = Ok a /\ k a = Ok b.
Proof. destruct r as [a|e]; simpl; [eauto|discriminate]. Qed.

Lemma mapR_ext {A B} (f g : A -> result B) l :
  (forall a, f a = g a) -> mapR f l = mapR g l.
Proof.
  intros Hfg. induction l as [|a l IH]; simpl; [reflexivity|].
  rewrite Hfg, IH. reflexivity.
Qed.

Lemma mapR_total {A B} (f : A -> result B) l :
  (forall a, exists b, f a = Ok b) -> exists bs, mapR f l = Ok bs.
Proof.
  intros Hf. induction l as [|a l [bs IH]]; simpl; [eauto|].
  destruct (Hf a) as [b ->]. rewrite IH. simpl. eauto.
Qed.


Lemma walk_total keys v d : exists r, walk keys v d = Ok r.
Proof.
  revert v. induction keys as [|key keys IH]; intros v; simpl; [eauto|].
  destruct (Js.isNullish v) eqn:Hn; [eauto|].
  unfold Js.member. rewrite Hn. simpl. apply IH.
Qed.

Lemma wildcard_nonempty : Str.isEmpty wildcard = false.
Proof. reflexivity. Qed.

Lemma restPath_length rest :
  (String.length (if Str.startsWith "." rest then Str.drop 1 rest else rest)
   <= String.length rest)%nat.
Proof.
  destruct (Str.startsWith "." rest); [apply StrFacts.length_drop|lia].
Qed.

Lemma getNestedValue_rec_S fuel obj pathStr arg :
  getNestedValue_rec (S fuel) obj pathStr arg =
  let defaultValue := Js.defaultTo VNull arg in
  if Str.isEmpty pathStr then Ok defaultValue
  else if Str.includes wildcard pathStr then
    match Str.split wildcard pathStr with
    | arrayPath :: rest :: _ =>
        let? array := getNestedValue_rec fuel obj arrayPath (VArr []) in
        match array with
        | VArr items =>
            let restPath :=
              if Str.startsWith "." rest then Str.drop 1 rest else rest in
            let? mapped :=
              mapR (fun item =>
                      if negb (Str.isEmpty restPath)
                      then getNestedValue_rec fuel item restPath VUndefined
                      else Ok item) items in
            Ok (VArr mapped)
        | _ => Ok defaultValue
        end
    | _ => Throw (TypeError "Cannot read properties of undefined")
    end
  else walk (pathKeys pathStr) obj defaultValue.
Proof. reflexivity. Qed.

(** Fuel beyond the length of the path changes nothing. *)
Lemma getNestedValue_rec_fuel n :
  forall m obj pathStr arg,
    (String.length pathStr <= n)%nat -> (String.length pathStr <= m)%nat ->
    getNestedValue_rec n obj pathStr arg = getNestedValue_rec m obj pathStr arg.
Proof.
  induction n as [|n IH]; intros m obj pathStr arg Hn Hm.
  - destruct pathStr; [|simpl in Hn; lia]. destruct m; reflexivity.
  - destruct m as [|m].
    { destruct pathStr; [reflexivity|simpl in Hm; lia]. }
    rewrite !getNestedValue_rec_S. cbv zeta.
    destruct (Str.isEmpty pathStr); [reflexivity|].
    destruct (Str.includes wildcard pathStr); [|reflexivity].
    destruct (Str.split wildcard pathStr) as [|a [|b r]] eqn:Hs; try reflexivity.
    pose proof (StrFacts.split_two_length _ _ _ _ _ wildcard_nonempty Hs) as Hl.
    pose proof (restPath_length b) as Hr.
    change (String.length wildcard) with 3%nat in Hl.
    set (restPath := if Str.startsWith "." b then Str.drop 1 b else b) in *.
    rewrite (IH m obj a (VArr [])) by lia.
    destruct (getNestedValue_rec m obj a (VArr [])) as [[]|]; simpl; try reflexivity.
    erewrite mapR_ext; [reflexivity|].
    intros item. cbv beta.
    destruct (negb (Str.isEmpty restPath)); [|reflexivity].
    apply IH; lia.
Qed.

(** The equation of [getNestedValue], as the source writes it. *)
Lemma getNestedValue_unfold obj pathStr arg :
  getNestedValue obj pathStr arg =
  let defaultValue := Js.defaultTo VNull arg in
  if Str.isEmpty pathStr then Ok defaultValue
  else if Str.includes wildcard pathStr then
    match Str.split wildcard pathStr with
    | arrayPath :: rest :: _ =>
        let? array := getNestedValue obj arrayPath (VArr []) in
        match array with
        | VArr items =>
            let restPath :=
              if Str.startsWith "." rest then Str.drop 1 rest else rest in
            let? mapped :=
              mapR (fun item =>
                      if negb (Str.isEmpty restPath)
                      then getNestedValue item restPath VUndefined
                      else Ok item) items in
            Ok (VArr mapped)
        | _ => Ok defaultValue
        end
    | _ => Throw (TypeError "Cannot read properties of undefined")
    end
  else walk (pathKeys pathStr) obj defaultValue.
Proof.
  unfold getNestedValue.
  destruct pathStr as [|c s] eqn:Hp; [reflexivity|]. rewrite <- Hp.
  assert (Hlen : exists n, String.length pathStr = S n).
  { subst. simpl. eauto. }
  destruct Hlen as [n Hn]. rewrite Hn, getNestedValue_rec_S. cbv zeta.
  destruct (Str.isEmpty pathStr); [reflexivity|].
  destruct (Str.includes wildcard pathStr); [|reflexivity].
  destruct (Str.split wildcard pathStr) as [|a [|b r]] eqn:Hs; try reflexivity.
  pose proof (StrFacts.split_two_length _ _ _ _ _ wildcard_nonempty Hs) as Hl.
  pose proof (restPath_length b) as Hr.
  change (String.length wildcard) with 3%nat in Hl.
  set (restPath := if Str.startsWith "." b then Str.drop 1 b else b) in *.
  rewrite (getNestedValue_rec_fuel n (String.length a) obj a (VArr [])) by lia.
  destruct (getNestedValue_rec (String.length a) obj a (VArr [])) as [[]|];
    simpl; try reflexivity.
  erewrite mapR_ext; [reflexivity|].
  intros item. cbv beta.
  destruct (negb (Str.isEmpty restPath)); [|reflexivity].
  apply getNestedValue_rec_fuel; lia.
Qed.

(** On own properties, where no read throws ([Js.getProp]),
    [getNestedValue] returns. *)
Lemma getNestedValue_rec_total n :
  forall obj pathStr arg,
    (String.length pathStr <= n)%nat ->
    exists v, getNestedValue_rec n obj pathStr arg = Ok v.
Proof.
  induction n as [|n IH]; intros obj pathStr arg Hn.
  - destruct pathStr; [|simpl in Hn; lia]. simpl. eauto.
  - rewrite getNestedValue_rec_S. cbv zeta.
    destruct (Str.isEmpty pathStr); [eauto|].
    destruct (Str.includes wildcard pathStr) eqn:Hi; [|apply walk_total].
    destruct (StrFacts.split_includes _ _ wildcard_nonempty Hi) as (a & b & r & Hs).
    rewrite Hs.
    pose proof (StrFacts.split_two_length _ _ _ _ _ wildcard_nonempty Hs) as Hl.
    pose proof (restPath_length b) as Hr.
    change (String.length wildcard) with 3%nat in Hl.
    set (restPath := if Str.startsWith "." b then Str.drop 1 b else b) in *.
    destruct (IH obj a (VArr [])) as [array ->]; [lia|]. cbn [rbind].
    destruct array; eauto.
    edestruct (mapR_total
                 (fun item =>
                    if negb (Str.isEmpty restPath)
                    then getNestedValue_rec n item restPath VUndefined
                    else Ok item) items) as [bs Hbs].
    { intros item. destruct (negb (Str.isEmpty restPath)); [|eauto].
      apply IH. lia. }
    rewrite Hbs. cbn [rbind]. eauto.
Qed.

Lemma getNestedValue_total obj pathStr arg :
  exists v, getNestedValue obj pathStr arg = Ok v.
Proof. apply getNestedValue_rec_total. lia. Qed.

(** A path without the marker is walked key by key. *)
Lemma getNestedValue_plain obj pathStr arg :
  Str.isEmpty pathStr = false -> Str.includes wildcard pathStr = false ->
  getNestedValue obj pathStr arg
  = walk (pathKeys pathStr) obj (Js.defaultTo VNull arg).
Proof.
  intros He Hi. rewrite getNestedValue_unfold. cbv zeta. rewrite He, Hi.
  reflexivity.
Qed.


(** The loop stops at the first missing value it holds with a key still
    to read; what the reads before it returned does not matter, only that
    they returned. *)
Lemma walk_missing before after obj v d :
  after <> [] -> readAlong before obj = Ok v -> Js.isNullish v = true ->
  walk (before ++ after) obj d = Ok d.
Proof.
  intros Ha. revert obj.
  induction before as [|key before IH]; intros obj Hr Hv.
  - cbn [readAlong] in Hr. injection Hr as ->.
    destruct after as [|key after]; [congruence|].
    cbn [app walk]. rewrite Hv. reflexivity.
  - cbn [readAlong] in Hr. apply rbind_Ok in Hr as (v' & Hm & Hr).
    cbn [app walk]. destruct (Js.isNullish obj); [reflexivity|].
    rewrite Hm. cbn [rbind]. apply IH; assumption.
Qed.

(** A walk that ends on [null] when [null] is the default ends on the
    default, whatever the default. *)
Lemma walk_null_default keys v :
  walk keys v VNull = Ok VNull -> forall d, walk keys v d = Ok d.
Proof.
  revert v. induction keys as [|key keys IH]; intros v Hw d; simpl in *.
  - unfold Js.coalesce in *. destruct (Js.isNullish v) eqn:Hn; [reflexivity|].
    injection Hw as ->. discriminate.
  - destruct (Js.isNullish v) eqn:Hn; [reflexivity|].
    apply rbind_Ok in Hw as (v' & Hm & Hw). rewrite Hm. cbn [rbind].
    apply IH, Hw.
Qed.

Lemma getNestedValue_null_default obj pathStr :
  Str.includes wildcard pathStr = false ->
  getNestedValue obj pathStr VUndefined = Ok VNull ->
  forall d, getNestedValue obj pathStr d = Ok (Js.defaultTo VNull d).
Proof.
  intros Hi Hn d. destruct (Str.isEmpty pathStr) eqn:He.
  - rewrite getNestedValue_unfold. cbv zeta. rewrite He. reflexivity.
  - rewrite getNestedValue_plain in * by assumption.
    apply walk_null_default, Hn.
Qed.



(** C5, as the code has it. On a path without the wildcard marker, a
    query that meets a missing ([undefined] or [null]) value before the
    keys are exhausted (the reads along the keys [before] returned and
    left the loop with a missing value, with the keys [after] still to
    read) returns the supplied default, [null] when none is supplied; it
    does not throw. (On a path with the marker the resolver's own defaults
    apply: the empty sequence for the prefix, [null] for each element.) *)
Theorem resolver_missing_default obj pathStr arg before after v :
  Str.includes wildcard pathStr = false ->
  pathKeys pathStr = before ++ after ->
  after <> [] ->
  readAlong before obj = Ok v ->
  Js.isNullish v = true ->
  getNestedValue obj pathStr arg = Ok (Js.defaultTo VNull arg)
  /\ (arg = VUndefined -> getNestedValue obj pathStr arg = Ok VNull).
Proof.
  intros Hi Hk Ha Hr Hm.
  assert (Hd : getNestedValue obj pathStr arg = Ok (Js.defaultTo VNull arg)).
  { destruct (Str.isEmpty pathStr) eqn:He.
    - rewrite getNestedValue_unfold. cbv zeta. rewrite He. reflexivity.
    - rewrite getNestedValue_plain by assumption.
      rewrite Hk. apply (walk_missing before after obj v); assumption. }
  split; [exact Hd|].
  intros Harg. rewrite Hd, Harg. reflexivity.
Qed.

Lemma resolver_missing_default_witness :
  getNestedValue Scenario.incomeData "income.w2[0].wages" (VStr "none")
  = Ok (VStr "none").
Proof.
  apply (resolver_missing_default Scenario.incomeData "income.w2[0].wages"
           (VStr "none") ["income"; "w2"] ["0"; "wages"] VUndefined);
    [reflexivity | reflexivity | discriminate | reflexivity | reflexivity].
Defined.

(** C5, as stated, fails on a path with the wildcard marker: in [{}]
    the read of [a] returns a missing value before ["a[*].b"] is
    exhausted, and the query returns the empty sequence, not the supplied
    default. *)
Lemma resolver_missing_wildcard_counterexample :
  readAlong ["a"] (VObj []) = Ok VUndefined
  /\ Js.isNullish VUndefined = true
  /\ getNestedValue (VObj []) "a[*].b" (VStr "x") = Ok (VArr [])
  /\ getNestedValue (VObj []) "a[*].b" (VStr "x") <> Ok (VStr "x").
Proof.
  split; [reflexivity|]. split; [reflexivity|].
  split; [reflexivity | discriminate].
Qed.

(** The first marker of a path decides: what precedes it is resolved
    with the empty sequence as default. *)
Lemma getNestedValue_first_wildcard obj prefix rest arg :
  Str.includes wildcard prefix = false ->
  exists restPath,
    getNestedValue obj (prefix +:+ wildcard +:+ rest) arg =
    let? array := getNestedValue obj prefix (VArr []) in
    match array with
    | VArr items =>
        let? mapped :=
          mapR (fun item =>
                  if negb (Str.isEmpty restPath)
                  then getNestedValue item restPath VUndefined
                  else Ok item) items in
        Ok (VArr mapped)
    | _ => Ok (Js.defaultTo VNull arg)
    end.
Proof.
  intros Hp. rewrite getNestedValue_unfold. cbv zeta.
  rewrite (StrFacts.isEmpty_append_false prefix wildcard rest wildcard_nonempty).
  rewrite StrFacts.includes_append.
  unfold Str.split, wildcard in *. rewrite (StrFacts.split_go_wildcard prefix rest Hp).
  destruct (Str.split_go "[*]" 0 rest) as [q qs]. eauto.
Qed.

(** C10. On a path with a wildcard marker: when the value at the prefix
    before the marker is present and is not a sequence, the query returns
    the supplied default; when the prefix resolves to nothing, the
    resolver's own default for it, the empty sequence, makes the query
    return the empty sequence instead of the caller's default. *)
Theorem wildcard_prefix_edges :
  (forall obj prefix rest arg v,
      Str.includes wildcard prefix = false ->
      getNestedValue obj prefix (VArr []) = Ok v ->
      Js.isArray v = false ->
      getNestedValue obj (prefix +:+ wildcard +:+ rest) arg
      = Ok (Js.defaultTo VNull arg))
  /\ (forall obj prefix rest arg,
         Str.includes wildcard prefix = false ->
         getNestedValue obj prefix VUndefined = Ok VNull ->
         getNestedValue obj (prefix +:+ wildcard +:+ rest) arg = Ok (VArr [])).
Proof.
  split.
  - intros obj prefix rest arg v Hp Hv Ha.
    destruct (getNestedValue_first_wildcard obj prefix rest arg Hp) as [rp ->].
    rewrite Hv. cbn [rbind]. destruct v; try reflexivity. discriminate.
  - intros obj prefix rest arg Hp Hn.
    destruct (getNestedValue_first_wildcard obj prefix rest arg Hp) as [rp ->].
    rewrite (getNestedValue_null_default obj prefix Hp Hn (VArr [])).
    reflexivity.
Qed.

Lemma wildcard_prefix_edges_witness :
  getNestedValue Scenario.incomeData ("income.total" +:+ wildcard +:+ ".b")
    (VStr "none") = Ok (VStr "none")
  /\ getNestedValue Scenario.incomeData ("income.w2" +:+ wildcard +:+ ".wages")
       (VStr "none") = Ok (VArr []).
Proof.
  split.
  - apply (proj1 wildcard_prefix_edges Scenario.incomeData "income.total" ".b"
             (VStr "none") (Scenario.num 578905 1)); reflexivity.
  - apply (proj2 wildcard_prefix_edges Scenario.incomeData "income.w2" ".wages"
             (VStr "none")); reflexivity.
Defined.

(** ** Condition evaluator *)

Lemma includes_cons_false needle c s :
  Str.includes needle (String c s) = false -> Str.includes needle s = false.
Proof. cbn [Str.includes]. intros Hi. apply orb_false_elim in Hi. tauto. Qed.

Lemma matchAlternatives_none s :
  String.prefix "==" s = false -> String.prefix "!=" s = false ->
  matchAlternatives operators s = None.
Proof.
  intros He Hn. unfold operators. cbn [matchAlternatives].
  rewrite (StrFacts.prefix3_prefix2 _ _ "="%char s He).
  rewrite (StrFacts.prefix3_prefix2 _ _ "="%char s Hn).
  rewrite He, Hn. reflexivity.
Qed.

Lemma matchOperator_none s :
  Str.includes "==" s = false -> Str.includes "!=" s = false ->
  matchOperator s = None.
Proof.
  intros He Hn. unfold matchOperator.
  apply matchAlternatives_none; apply StrFacts.includes_prefix_false;
    apply StrFacts.includes_dropWhile; assumption.
Qed.

Lemma matchCondition_go_none s :
  Str.includes "==" s = false -> Str.includes "!=" s = false ->
  forall group1, matchCondition_go group1 s = None.
Proof.
  induction s as [|c s IH]; intros He Hn group1; cbn [matchCondition_go];
    rewrite (matchOperator_none _ He Hn); [reflexivity|].
  destruct (Str.isLineTerminator c); [reflexivity|].
  apply IH; eapply includes_cons_false; eassumption.
Qed.

(** An expression in which no equality operator occurs does not match
    the pattern. *)
Lemma matchCondition_none cond :
  Str.includes "==" cond = false -> Str.includes "!=" cond = false ->
  matchCondition cond = None.
Proof.
  intros He Hn. destruct cond as [|c s]; [reflexivity|]. cbn [matchCondition].
  destruct (Str.isLineTerminator c); [reflexivity|].
  apply matchCondition_go_none; eapply includes_cons_false; eassumption.
Qed.

(** ** Value formatter *)

Lemma pow10_pos n : (0 < Num.pow10 n)%N.
Proof.
  unfold Num.pow10. apply N.neq_0_lt_0, N.pow_nonzero. discriminate.
Qed.

(** A zero has no digit before or after the point, whatever its scale. *)
Lemma formatFixed_zero neg scale :
  Num.formatFixed neg 0 scale 2 = (if neg then "-" else "") +:+ "0.00".
Proof.
  unfold Num.formatFixed.
  assert (Hs : (if (scale <=? 2)%nat then (0 * Num.pow10 (2 - scale))%N
                else (0 / Num.pow10 (scale - 2)
                      + (if (Num.pow10 (scale - 2)
                             <=? 2 * (0 mod Num.pow10 (scale - 2)))%N
                         then 1 else 0))%N) = 0%N).
  { destruct (scale <=? 2)%nat; [reflexivity|].
    pose proof (pow10_pos (scale - 2)) as Hp.
    rewrite N.Div0.div_0_l, N.Div0.mod_0_l.
    destruct (N.leb_spec (Num.pow10 (scale - 2)) (2 * 0)); [lia|reflexivity]. }
  rewrite Hs. reflexivity.
Qed.

Lemma isBlank_parseFloat value :
  isBlank value = true -> Js.parseFloat value = NaN.
Proof.
  destruct value as [| | | |s| |]; try discriminate; try reflexivity.
  destruct s; [reflexivity|discriminate].
Qed.

Section FormatterFacts.
Context `{DateEngine}.

(** C2, as the code has it. The formatter maps [null], [undefined]
    and the empty string to the empty string for every field type, the
    check box included; for a field of type check box it maps [false]
    to the boolean false. *)
Theorem blank_formats_empty :
  (forall field,
      formatValue VNull field = Ok (VStr "")
      /\ formatValue VUndefined field = Ok (VStr "")
      /\ formatValue (VStr "") field = Ok (VStr ""))
  /\ (forall field,
         field_type field = "checkbox" ->
         formatValue (VBool false) field = Ok (VBool false)).
Proof.
  split; [intros field; repeat split|].
  intros field Ht. unfold formatValue. rewrite Ht. reflexivity.
Qed.

(** C3, as the code has it. Under default options the generic
    formatter does not suppress a currency input that parses to zero:
    it produces ["0.00"], and ["-0.00"] when the zero parsed is
    negative; the currency formatter of the 1040 script produces the
    empty string for both. The input [1234.5] formats to ["1,234.50"]
    in the generic renderer. *)
Theorem zero_currency_policies :
  (forall field value neg scale,
      field_type field = "currency" ->
      decimalPlaces (field_format field) = None ->
      currencySymbol (field_format field) = false ->
      Js.parseFloat value = Fin neg 0 scale ->
      formatValue value field = Ok (VStr (if neg then "-0.00" else "0.00"))
      /\ formatCurrency value = Ok "")
  /\ (forall field,
         field_type field = "currency" ->
         decimalPlaces (field_format field) = None ->
         currencySymbol (field_format field) = false ->
         formatValue (VNum (Fin false 12345 1)) field = Ok (VStr "1,234.50")).
Proof.
  split.
  - intros field value neg scale Ht Hd Hc Hz.
    assert (Hb : isBlank value = false).
    { destruct (isBlank value) eqn:Hb; [|reflexivity].
      rewrite (isBlank_parseFloat _ Hb) in Hz. discriminate. }
    unfold formatValue, formatCurrency. rewrite Hb, Ht, Hd, Hc, Hz.
    cbn [String.eqb Ascii.eqb Bool.eqb Num.isNaN default Num.toLocaleString
           Nat.ltb Nat.leb rbind orb].
    rewrite formatFixed_zero. split; [destruct neg; reflexivity|].
    destruct neg; reflexivity.
  - intros field Ht Hd Hc. unfold formatValue. rewrite Ht, Hd, Hc. reflexivity.
Qed.

End FormatterFacts.

Lemma blank_formats_empty_witness :
  @formatValue Scenario.noDates (VBool false)
    (Scenario.field "single" "checkbox" "filingStatus.single" noFormat None)
  = Ok (VBool false).
Proof.
  apply (proj2 (@blank_formats_empty Scenario.noDates)). reflexivity.
Defined.

(** C2, as stated, fails for an absent value on a check box: the
    formatter returns the empty string, not the boolean false. *)
Lemma checkbox_absent_counterexample :
  @formatValue Scenario.noDates VNull
    (Scenario.field "single" "checkbox" "filingStatus.single" noFormat None)
  = Ok (VStr "")
  /\ @formatValue Scenario.noDates VNull
       (Scenario.field "single" "checkbox" "filingStatus.single" noFormat None)
     <> Ok (VBool false).
Proof. split; [reflexivity|discriminate]. Qed.

Lemma zero_currency_policies_witness :
  (@formatValue Scenario.noDates (VStr "0.00")
     (Scenario.field "line9" "currency" "income.total" noFormat None)
   = Ok (VStr "0.00")
   /\ formatCurrency (VStr "0.00") = Ok "")
  /\ @formatValue Scenario.noDates (VNum (Fin false 12345 1))
       (Scenario.field "line9" "currency" "income.total" noFormat None)
     = Ok (VStr "1,234.50").
Proof.
  split.
  - apply (proj1 (@zero_currency_policies Scenario.noDates)
             (Scenario.field "line9" "currency" "income.total" noFormat None)
             (VStr "0.00") false 2%nat); reflexivity.
  - apply (proj2 (@zero_currency_policies Scenario.noDates)); reflexivity.
Defined.

(** C3, as stated, fails for the input ["-0"]: it parses to zero, and
    the generic formatter produces ["-0.00"]. *)
Lemma negative_zero_counterexample :
  Num.isZero (Js.parseFloat (VStr "-0")) = true
  /\ @formatValue Scenario.noDates (VStr "-0")
       (Scenario.field "line9" "currency" "income.total" noFormat None)
     = Ok (VStr "-0.00")
  /\ @formatValue Scenario.noDates (VStr "-0")
       (Scenario.field "line9" "currency" "income.total" noFormat None)
     <> Ok (VStr "0.00").
Proof. split; [reflexivity|]. split; [reflexivity|discriminate]. Qed.

(** ** Render passes *)

Lemma evaluateCondition_total cond data :
  exists b, evaluateCondition cond data = Ok b.
Proof.
  unfold evaluateCondition. destruct cond as [cond|]; [|eauto].
  destruct (Str.isEmpty cond); [eauto|].
  destruct (matchCondition cond) as [[[pathStr operator] expectedStr]|]; [|eauto].
  destruct (getNestedValue_total data (Str.trim pathStr) VUndefined) as [v ->].
  cbn [rbind].
  destruct (String.eqb operator "===" || String.eqb operator "=="); [eauto|].
  destruct (String.eqb operator "!==" || String.eqb operator "!="); eauto.
Qed.

Lemma evaluateCondition_isActive data field :
  evaluateCondition (condition (field_binding field)) data
  = Ok (isActive data field).
Proof.
  unfold isActive.
  destruct (evaluateCondition_total (condition (field_binding field)) data)
    as [b ->]. reflexivity.
Qed.

Lemma nativeResult_fallback counts :
  nativeResult counts !!! "fallbackCount" = snd counts.
Proof. unfold nativeResult. apply lookup_total_insert_eq. Qed.

Lemma nativeResult_filled counts :
  nativeResult counts !!! "filledCount" = fst counts.
Proof.
  unfold nativeResult. rewrite lookup_total_insert_ne by discriminate.
  apply lookup_total_insert_eq.
Qed.

Lemma nativeResult_update counts n :
  <["filledCount" := n]> (nativeResult counts) = nativeResult (n, snd counts).
Proof.
  unfold nativeResult. cbn [fst snd].
  rewrite insert_insert_ne by discriminate.
  rewrite insert_insert_eq. reflexivity.
Qed.

Section RenderFacts.
Context `{DateEngine} `{Font}.

Lemma formattedValueOf_eq data field w :
  formattedValueOf data field w = (w, formattedResult data field).
Proof.
  unfold formattedValueOf, formattedResult, bind, liftR.
  destruct (getNestedValue _ _ _); reflexivity.
Qed.

(** *** The steps of the native pass, case by case *)

Lemma nativeStep_inactive data counts field w :
  isActive data field = false ->
  nativeStep data counts field w = (w, Ok counts).
Proof.
  intros Ha. destruct counts as [a b]. unfold nativeStep, bind, liftR.
  rewrite evaluateCondition_isActive, Ha. reflexivity.
Qed.

Lemma nativeStep_lacking data a b field w :
  isActive data field = true -> hasNativeId field = false ->
  nativeStep data (a, b) field w = (w, Ok (a, S b)).
Proof.
  intros Ha Hn. unfold nativeStep, bind, liftR.
  rewrite evaluateCondition_isActive, Ha, Hn. reflexivity.
Qed.

Lemma nativeStep_native data counts field w :
  isActive data field = true -> hasNativeId field = true ->
  nativeStep data counts field w =
  match formattedResult data field with
  | Throw e => (w, Throw e)
  | Ok fv =>
      if Js.strictEq fv (VStr "") && negb (isCheckbox field)
      then (w, Ok counts)
      else tryPlaceNative field fv counts w
  end.
Proof.
  intros Ha Hn. destruct counts as [a b]. unfold nativeStep, bind, liftR.
  rewrite evaluateCondition_isActive, Ha, Hn. cbn [negb].
  rewrite formattedValueOf_eq.
  destruct (formattedResult data field) as [fv|e]; [|reflexivity].
  destruct (Js.strictEq fv (VStr "") && negb (isCheckbox field)); reflexivity.
Qed.

Ltac run_place :=
  intros; unfold tryPlaceNative, tryCatch, bind, ret, warn, getCheckBox,
    check, getTextField, setText, record;
  repeat match goal with
         | E : _ = _ |- _ => rewrite E
         end;
  reflexivity.

Lemma tryPlaceNative_outcome field fv w :
  exists w' placed,
    NativeOutcome field fv w w' placed
    /\ forall a b,
        tryPlaceNative field fv (a, b) w
        = (w', Ok (if placed then S a else a, b)).
Proof.
  destruct (isCheckbox field) eqn:Hc.
  - destruct (Js.strictEq fv (VBool true)) eqn:Ht.
    + destruct (form w !! nativeId field) as [[old ml|c|kind]|] eqn:Hl;
        first [ (eexists _, true; split;
                   [eapply NativeChecked; eassumption|run_place])
              | (eexists _, false; split;
                   [apply NativeFailed; intros _; assumption|run_place]) ].
    + eexists _, false. split; [|run_place]. apply NativeNothing; assumption.
  - destruct (form w !! nativeId field) as [[old ml|c|kind]|] eqn:Hl;
      try (eexists _, false; split;
             [apply NativeFailed; congruence|run_place]).
    destruct ml as [max|].
    + destruct (max <? String.length
                        (if String.eqb (field_type field) "ssn"
                         then stripDashes (Js.toStr fv) else Js.toStr fv))%nat
        eqn:Hm.
      * eexists _, false. split; [apply NativeFailed; congruence|run_place].
      * eexists _, true. split; [|run_place].
        eapply NativeTextSet; [assumption|eassumption|reflexivity].
    + eexists _, true. split; [|run_place].
      eapply NativeTextSet; [assumption|eassumption|reflexivity].
Qed.

Lemma nativeStep_spec data field w :
  exists w' r,
    NativeStep data field w w' r
    /\ forall counts,
        nativeStep data counts field w = (w', addCounts counts r).
Proof.
  destruct (isActive data field) eqn:Ha.
  - destruct (hasNativeId field) eqn:Hn.
    + destruct (formattedResult data field) as [fv|e] eqn:Hf.
      * destruct (Js.strictEq fv (VStr "") && negb (isCheckbox field)) eqn:He.
        -- exists w, (Ok (0, 0)%nat). split; [eapply StepEmpty; eassumption|].
           intros [a b]. rewrite nativeStep_native, Hf, He by assumption.
           cbn. rewrite !Nat.add_0_r. reflexivity.
        -- destruct (tryPlaceNative_outcome field fv w) as (w' & placed & Ho & Hp).
           exists w', (Ok (if placed then 1 else 0, 0)%nat).
           split; [eapply StepAttempt; eassumption|].
           intros [a b]. rewrite nativeStep_native, Hf, He, Hp by assumption.
           cbn. rewrite Nat.add_0_r.
           destruct placed; rewrite ?Nat.add_1_r, ?Nat.add_0_r; reflexivity.
      * exists w, (Throw e). split; [eapply StepThrow; eassumption|].
        intros counts. rewrite nativeStep_native, Hf by assumption. reflexivity.
    + exists w, (Ok (0, 1)%nat). split; [apply StepFallback; assumption|].
      intros [a b]. rewrite nativeStep_lacking by assumption.
      cbn. rewrite Nat.add_0_r, Nat.add_1_r. reflexivity.
  - exists w, (Ok (0, 0)%nat). split; [apply StepInactive; assumption|].
    intros [a b]. rewrite nativeStep_inactive by assumption.
    cbn. rewrite !Nat.add_0_r. reflexivity.
Qed.

(** *** The steps of the coordinate pass *)

Lemma coordinateStep_inactive data n field w :
  isActive data field = false ->
  coordinateStep data n field w = (w, Ok n).
Proof.
  intros Ha. unfold coordinateStep, bind, liftR.
  rewrite evaluateCondition_isActive, Ha. reflexivity.
Qed.

Lemma coordinateStep_active data n field w :
  isActive data field = true ->
  coordinateStep data n field w =
  match formattedResult data field with
  | Throw e => (w, Throw e)
  | Ok fv =>
      if Js.strictEq fv (VStr "") && negb (isCheckbox field)
      then (w, Ok n)
      else
        if (1 <=? field_page field)%Z
           && (field_page field <=? Z.of_nat (pageCount w))%Z
        then drawField (Z.to_nat (field_page field - 1)) field fv n w
        else (addWarning ("Page " +:+ Num.digitsOfZ (field_page field)
                          +:+ " not found for field " +:+ field_id field) w,
              Ok n)
  end.
Proof.
  intros Ha. unfold coordinateStep, bind, liftR.
  rewrite evaluateCondition_isActive, Ha. cbn [negb].
  rewrite formattedValueOf_eq.
  destruct (formattedResult data field) as [fv|e]; [|reflexivity].
  destruct (Js.strictEq fv (VStr "") && negb (isCheckbox field)); [reflexivity|].
  unfold getPage.
  destruct ((1 <=? field_page field)%Z
            && (field_page field <=? Z.of_nat (pageCount w))%Z); reflexivity.
Qed.

(** Drawing a field makes one call and counts it, makes none, or
    throws before any call. *)
Lemma drawField_cases pageIndex field fv n w :
  drawField pageIndex field fv n w = (w, Ok n)
  \/ (exists e, drawField pageIndex field fv n w = (w, Throw e))
  \/ (exists text x y size,
         drawField pageIndex field fv n w
         = (addCall (DrawText pageIndex text x y size) (form w) w, Ok (S n))).
Proof.
  unfold drawField, bind, ret, drawText, measureText, throw, record.
  destruct (isCheckbox field).
  - destruct (Js.strictEq fv (VBool true)); [|left; reflexivity].
    destruct (canEncode _); [|right; left; eauto].
    right; right. eauto.
  - destruct (canEncode (Js.toStr fv)); [|right; left; eauto].
    right; right. eauto.
Qed.

Lemma coordinateStep_cases data n field w :
  coordinateStep data n field w = (w, Ok n)
  \/ (exists e, coordinateStep data n field w = (w, Throw e))
  \/ (exists msg, coordinateStep data n field w = (addWarning msg w, Ok n))
  \/ (exists pageIndex text x y size,
         coordinateStep data n field w
         = (addCall (DrawText pageIndex text x y size) (form w) w, Ok (S n))).
Proof.
  destruct (isActive data field) eqn:Ha;
    [|left; apply coordinateStep_inactive; assumption].
  rewrite coordinateStep_active by assumption.
  destruct (formattedResult data field) as [fv|e]; [|right; left; eauto].
  destruct (Js.strictEq fv (VStr "") && negb (isCheckbox field));
    [left; reflexivity|].
  destruct ((1 <=? field_page field)%Z
            && (field_page field <=? Z.of_nat (pageCount w))%Z);
    [|right; right; left; eauto].
  destruct (drawField_cases (Z.to_nat (field_page field - 1)) field fv n w)
    as [->|[[e ->]|(text & x & y & size & ->)]]; eauto 10.
Qed.

(** *** Passes *)

Lemma forEach_cons {A} (step : A -> Field -> M A) acc field fs w :
  forEach step acc (field :: fs) w =
  match step acc field w with
  | (w', Ok acc') => forEach step acc' fs w'
  | (w', Throw e) => (w', Throw e)
  end.
Proof. reflexivity. Qed.

(** A relation between worlds that every step respects is respected by
    a pass. *)
Lemma forEach_respects {A} (step : A -> Field -> M A)
  (R : World -> World -> Prop) :
  (forall w, R w w) ->
  (forall w1 w2 w3, R w1 w2 -> R w2 w3 -> R w1 w3) ->
  (forall acc field w, R w (step acc field w).1) ->
  forall fs acc w, R w (forEach step acc fs w).1.
Proof.
  intros Hrefl Htrans Hstep. induction fs as [|field fs IH]; intros acc w.
  - apply Hrefl.
  - rewrite forEach_cons. specialize (Hstep acc field w).
    destruct (step acc field w) as [w' [acc'|e]]; cbn [fst] in *; [|exact Hstep].
    eapply Htrans; [exact Hstep|apply IH].
Qed.

Lemma CallsAdded_refl P n w : CallsAdded P n w w.
Proof. exists []. rewrite app_nil_r. repeat split; [constructor|simpl; lia]. Qed.

Lemma CallsAdded_trans P n m w1 w2 w3 :
  CallsAdded P n w1 w2 -> CallsAdded P m w2 w3 -> CallsAdded P (n + m) w1 w3.
Proof.
  intros (l1 & E1 & F1 & L1) (l2 & E2 & F2 & L2). exists (l1 ++ l2).
  rewrite E2, E1, <- app_assoc. repeat split.
  - apply Forall_app; split; assumption.
  - rewrite length_app. lia.
Qed.

Lemma CallsAdded_warning P n msg w : CallsAdded P n w (addWarning msg w).
Proof. apply (CallsAdded_refl P n w). Qed.

Lemma CallsAdded_call (P : Call -> Prop) c fm w :
  P c -> CallsAdded P 1 w (addCall c fm w).
Proof.
  intros Hc. exists [c]. repeat split; [repeat constructor; exact Hc|simpl; lia].
Qed.

Lemma forEach_calls {A} (step : A -> Field -> M A) (P : Call -> Prop) :
  (forall acc field w, CallsAdded P 1 w (step acc field w).1) ->
  forall fs acc w, CallsAdded P (length fs) w (forEach step acc fs w).1.
Proof.
  intros Hstep. induction fs as [|field fs IH]; intros acc w.
  - apply CallsAdded_refl.
  - rewrite forEach_cons. specialize (Hstep acc field w).
    destruct (step acc field w) as [w' [acc'|e]]; cbn [fst] in *.
    + change (length (field :: fs)) with (1 + length fs)%nat.
      eapply CallsAdded_trans; [exact Hstep|apply IH].
    + destruct Hstep as (l & E & F & L). exists l.
      repeat split; [assumption..|simpl; lia].
Qed.




Lemma coordinateStep_calls data n field w :
  CallsAdded isDrawCall 1 w (coordinateStep data n field w).1.
Proof.
  destruct (coordinateStep_cases data n field w)
    as [->|[[e ->]|[[msg ->]|(p & text & x & y & size & ->)]]];
    first [ apply CallsAdded_refl | apply CallsAdded_warning
          | apply CallsAdded_call; exact I ].
Qed.

Lemma NativeOutcome_keeps field fv w w' placed :
  NativeOutcome field fv w w' placed -> KeepsChecked w w'.
Proof.
  intros [| c Hc Ht Hl | old ml text Hc Hl Ht | e _] name Hn;
    cbn [form addCall addWarning];
    try assumption.
  - destruct (decide (nativeId field = name)) as [<-|Hne].
    + apply lookup_insert_eq.
    + rewrite lookup_insert_ne by assumption. assumption.
  - rewrite lookup_insert_ne; [assumption|].
    intros Heq. subst name. rewrite Hl in Hn. discriminate.
Qed.

Lemma nativeStep_keeps data counts field w :
  KeepsChecked w (nativeStep data counts field w).1.
Proof.
  destruct (nativeStep_spec data field w) as (w' & r & Hs & ->). cbn [fst].
  destruct Hs; try (intros name Hn; exact Hn).
  eapply NativeOutcome_keeps; eassumption.
Qed.

Lemma coordinateStep_keeps data n field w :
  KeepsChecked w (coordinateStep data n field w).1.
Proof.
  destruct (coordinateStep_cases data n field w)
    as [->|[[e ->]|[[msg ->]|(p & text & x & y & size & ->)]]];
    intros name Hn; exact Hn.
Qed.

Lemma KeepsChecked_trans w1 w2 w3 :
  KeepsChecked w1 w2 -> KeepsChecked w2 w3 -> KeepsChecked w1 w3.
Proof. intros H12 H23 name Hn. apply H23, H12, Hn. Qed.

(** *** The two passes of the native mode *)

Lemma NativeStep_native data field w w' r :
  hasNativeId field = true -> NativeStep data field w w' r ->
  (exists e, r = Throw e) \/ (exists d, r = Ok (d, 0)%nat).
Proof. intros Hn [| | | |]; eauto; congruence. Qed.

Lemma NativeStep_lacking data field w w' r :
  hasNativeId field = false -> NativeStep data field w w' r ->
  w' = w /\ r = Ok (0, if isActive data field then 1 else 0)%nat.
Proof.
  intros Hn [Ha|Ha _| | |]; try congruence; rewrite Ha; split; reflexivity.
Qed.

(** The native pass over all the fields is the native pass over the
    fields with a native identifier; the others only add to
    [fallbackCount]. *)
Lemma native_pass_filter data fs :
  forall a b w,
    forEach (nativeStep data) (a, b) fs w =
    match forEach (nativeStep data) (a, 0%nat) (List.filter hasNativeId fs) w with
    | (w', Ok (a', _)) => (w', Ok (a', b + activeLacking data fs)%nat)
    | (w', Throw e) => (w', Throw e)
    end.
Proof.
  induction fs as [|field fs IH]; intros a b w.
  - cbn. rewrite Nat.add_0_r. reflexivity.
  - destruct (nativeStep_spec data field w) as (w' & r & Hs & Hstep).
    unfold activeLacking. cbn [List.filter].
    destruct (hasNativeId field) eqn:Hn; cbn [negb andb].
    + rewrite !forEach_cons, !Hstep.
      destruct (NativeStep_native _ _ _ _ _ Hn Hs) as [[e ->]|[d ->]];
        [reflexivity|].
      cbn [addCounts fst snd]. rewrite Nat.add_0_r. apply IH.
    + destruct (NativeStep_lacking _ _ _ _ _ Hn Hs) as [-> ->].
      rewrite forEach_cons, Hstep. cbn [addCounts fst snd].
      rewrite Nat.add_0_r, IH. fold (activeLacking data fs).
      destruct (forEach (nativeStep data) (a, 0%nat) (List.filter hasNativeId fs) w)
        as [w1 [[a1 b1]|e]]; [|reflexivity].
      destruct (isActive data field); cbn [length]; unfold activeLacking;
        do 3 f_equal; lia.
Qed.

Lemma coordinate_pass_inactive data fs :
  activeLacking data fs = 0%nat ->
  forall n w,
    forEach (coordinateStep data) n
      (List.filter (fun f => negb (hasNativeId f)) fs) w = (w, Ok n).
Proof.
  unfold activeLacking.
  induction fs as [|field fs IH]; intros Hz n w; [reflexivity|].
  cbn [List.filter] in *. destruct (hasNativeId field); cbn [negb andb] in *.
  - apply IH, Hz.
  - destruct (isActive data field) eqn:Ha; [discriminate|].
    rewrite forEach_cons, coordinateStep_inactive by assumption.
    apply IH, Hz.
Qed.

Lemma render_native annotation data options w :
  useNative annotation options = true ->
  render annotation data options w = twoPasses data (fields annotation) w.
Proof.
  unfold useNative. intros Hu. unfold render. rewrite Hu.
  unfold twoPasses, fillWithNativeFields, fillWithCoordinates, bind, ret.
  rewrite native_pass_filter.
  destruct (forEach (nativeStep data) (0, 0)%nat
              (List.filter hasNativeId (fields annotation)) w)
    as [w1 [[a1 b1]|e]] eqn:Hp; [|reflexivity].
  rewrite nativeResult_fallback, nativeResult_filled. cbn [fst snd plus].
  destruct (0 <? activeLacking data (fields annotation))%nat eqn:Hl.
  - destruct (forEach (coordinateStep data) 0%nat _ w1) as [w2 [c|e]];
      [|reflexivity].
    rewrite nativeResult_update. reflexivity.
  - apply Nat.ltb_ge in Hl.
    rewrite coordinate_pass_inactive by lia.
    rewrite Nat.add_0_r. reflexivity.
Qed.

Lemma render_coordinates annotation data options w :
  useNative annotation options = false ->
  render annotation data options w =
  match fillWithCoordinates annotation data w with
  | (w', Ok filledCount) => (w', Ok (<["filledCount" := filledCount]> ∅))
  | (w', Throw e) => (w', Throw e)
  end.
Proof.
  unfold useNative. intros Hu. unfold render. rewrite Hu.
  unfold bind, ret. destruct (fillWithCoordinates annotation data w)
    as [w' [n|e]]; reflexivity.
Qed.

(** *** Claims on the render passes *)

(** C6. The condition evaluator returns true when the expression is
    absent (or empty), and when it is malformed: when the pattern
    [<path> <operator> <literal>] does not match, which is the case of
    every expression without an occurrence of [==] or [!=] ([===] and
    [!==] contain them). A field with such a condition is never skipped
    for it: both passes treat the field as they treat it without the
    condition. *)
Theorem condition_absent_or_malformed :
  (forall data, evaluateCondition None data = Ok true)
  /\ (forall data, evaluateCondition (Some "") data = Ok true)
  /\ (forall cond data,
         matchCondition cond = None ->
         evaluateCondition (Some cond) data = Ok true)
  /\ (forall cond data,
         Str.includes "==" cond = false -> Str.includes "!=" cond = false ->
         evaluateCondition (Some cond) data = Ok true)
  /\ (forall cond data field,
         condition (field_binding field) = Some cond ->
         matchCondition cond = None ->
         isActive data field = true
         /\ (forall n w,
                coordinateStep data n field w
                = coordinateStep data n (unconditional field) w)
         /\ (forall counts w,
                nativeStep data counts field w
                = nativeStep data counts (unconditional field) w)).
Proof.
  assert (Hm : forall cond data,
             matchCondition cond = None ->
             evaluateCondition (Some cond) data = Ok true).
  { intros cond data Hm. unfold evaluateCondition. rewrite Hm.
    destruct (Str.isEmpty cond); reflexivity. }
  split; [reflexivity|]. split; [reflexivity|]. split; [exact Hm|].
  split.
  - intros cond data He Hn. apply Hm, matchCondition_none; assumption.
  - intros cond data field Hc Hn.
    assert (Ha : evaluateCondition (condition (field_binding field)) data
                 = Ok true).
    { rewrite Hc. apply Hm, Hn. }
    split; [unfold isActive; rewrite Ha; reflexivity|].
    split.
    + intros n w. unfold coordinateStep, bind, liftR. rewrite Ha. reflexivity.
    + intros [a b] w. unfold nativeStep, bind, liftR. rewrite Ha. reflexivity.
Qed.




Lemma strictEq_true fv : Js.strictEq fv (VBool true) = true -> fv = VBool true.
Proof. destruct fv as [| |[]| | | |]; simpl; congruence. Qed.

Lemma render_keeps annotation data options w :
  KeepsChecked w (render annotation data options w).1.
Proof.
  assert (Hn : forall fs acc w0,
             KeepsChecked w0 (forEach (nativeStep data) acc fs w0).1).
  { apply forEach_respects;
      [intros ? ? Hx; exact Hx | apply KeepsChecked_trans
      | apply nativeStep_keeps]. }
  assert (Hc : forall fs acc w0,
             KeepsChecked w0 (forEach (coordinateStep data) acc fs w0).1).
  { apply forEach_respects;
      [intros ? ? Hx; exact Hx | apply KeepsChecked_trans
      | apply coordinateStep_keeps]. }
  destruct (useNative annotation options) eqn:Hu.
  - rewrite render_native by assumption. unfold twoPasses, bind, ret.
    specialize (Hn (List.filter hasNativeId (fields annotation)) (0, 0)%nat w).
    destruct (forEach (nativeStep data) (0, 0)%nat _ w) as [w1 [counts|e]];
      cbn [fst] in *; [|exact Hn].
    specialize (Hc (List.filter (fun f => negb (hasNativeId f))
                      (fields annotation)) 0%nat w1).
    destruct (forEach (coordinateStep data) 0%nat _ w1) as [w2 [c|e]];
      cbn [fst] in *; eapply KeepsChecked_trans; eassumption.
  - rewrite render_coordinates by assumption. unfold fillWithCoordinates.
    specialize (Hc (fields annotation) 0%nat w).
    destruct (forEach (coordinateStep data) 0%nat (fields annotation) w)
      as [w' [n|e]]; exact Hc.
Qed.

(** C8. Native placement never unchecks a check box: a box that is
    checked is still checked after a render. For a field of type check
    box, the step of the native pass changes nothing (no call, no
    warning) unless the formatted value is exactly [true], and the only
    call it can make is the check of the field's native identifier.
    Coordinate placement, likewise, draws nothing for a check box whose
    formatted value is not [true]. *)
Theorem native_checkbox_never_unchecked :
  (forall annotation data options w name,
      form w !! name = Some (CheckBox true) ->
      form (render annotation data options w).1 !! name
      = Some (CheckBox true))
  /\ (forall data counts field w,
         isCheckbox field = true ->
         (formattedResult data field <> Ok (VBool true) ->
          (nativeStep data counts field w).1 = w)
         /\ (forall c,
                In c (calls (nativeStep data counts field w).1) ->
                In c (calls w)
                \/ (c = Check (nativeId field)
                    /\ formattedResult data field = Ok (VBool true))))
  /\ (forall data n field w,
         isCheckbox field = true ->
         formattedResult data field <> Ok (VBool true) ->
         calls (coordinateStep data n field w).1 = calls w).
Proof.
  split; [|split].
  - intros annotation data options w name. apply render_keeps.
  - intros data counts field w Hc.
    destruct (nativeStep_spec data field w) as (w' & r & Hs & ->). cbn [fst].
    destruct Hs as [| | | |fv w' placed Ha Hn Hf He Ho]; try (split; auto; fail).
    destruct Ho as [Hc' Ht|c Hc' Ht Hl|old ml text Hc' Hl Htx|e Hatt].
    + split; auto.
    + apply strictEq_true in Ht. subst fv. split; [congruence|].
      cbn [calls addCall]. intros c0 Hin. apply in_app_or in Hin as [Hin|Hin];
        [left; exact Hin|right].
      destruct Hin as [<-|[]]. split; [reflexivity|exact Hf].
    + congruence.
    + specialize (Hatt Hc). apply strictEq_true in Hatt. subst fv.
      split; [congruence|]. cbn [calls addWarning]. auto.
  - intros data n field w Hc Hf.
    destruct (isActive data field) eqn:Ha;
      [|rewrite coordinateStep_inactive by assumption; reflexivity].
    rewrite coordinateStep_active by assumption.
    destruct (formattedResult data field) as [fv|e]; [|reflexivity].
    rewrite Hc, andb_false_r.
    destruct ((1 <=? field_page field)%Z
              && (field_page field <=? Z.of_nat (pageCount w))%Z);
      [|reflexivity].
    unfold drawField. rewrite Hc.
    destruct (Js.strictEq fv (VBool true)) eqn:Ht; [|reflexivity].
    apply strictEq_true in Ht. congruence.
Qed.



(** C9, as the code has it. An annotation with one currency field
    bound to ["income.total"], without native identifier, condition,
    transform or number options, on a page of the document, rendered
    against [{income:{total:57890.5}}]: coordinate placement draws
    ["57,890.50"] at the left inset of the rectangle, or at its right
    inset or centred when [format.align] says so, and the render returns
    the object [{filledCount: 1}], which has no [fallbackCount] and no
    [errorCount]. *)
Theorem income_total_scenario id page pos fb df fsz cm al options w :
  let format :=
    {| decimalPlaces := None; currencySymbol := false; dateFormat := df;
       fontSize := fsz; checkMark := cm; align := al |} in
  let field :=
    {| field_id := id; field_type := "currency"; field_page := page;
       field_position := pos;
       field_binding := {| path := "income.total"; transform := None;
                           condition := None; fallback := fb |};
       field_format := format; nativeFieldId := None |} in
  let size := fontSizeOf format in
  let textWidth := widthOfTextAtSize "57,890.50" size in
  let textX :=
    if String.eqb (orString al "") "right"
    then (pos_x pos + pos_width pos - textWidth - 2)%Q
    else if String.eqb (orString al "") "center"
         then (pos_x pos + (pos_width pos - textWidth) / 2)%Q
         else (pos_x pos + 2)%Q in
  (1 <= page <= Z.of_nat (pageCount w))%Z ->
  canEncode "57,890.50" = true ->
  exists result,
    render {| fields := [field] |} Scenario.incomeData options w
    = (addCall (DrawText (Z.to_nat (page - 1)) "57,890.50" textX
                  (pos_y pos + (pos_height pos - size) / 2)%Q size)
         (form w) w, Ok result)
    /\ result !! "filledCount" = Some 1%nat
    /\ result !! "fallbackCount" = None
    /\ result !! "errorCount" = None.
Proof.
  intros format field size textWidth textX Hpage Henc.
  exists (<["filledCount" := 1%nat]> ∅). split; [|repeat split].
  rewrite render_coordinates by apply andb_false_r.
  unfold fillWithCoordinates. cbn [fields].
  rewrite forEach_cons, coordinateStep_active by reflexivity.
  assert (Hf : formattedResult Scenario.incomeData field
               = Ok (VStr "57,890.50")) by reflexivity.
  rewrite Hf.
  change (Js.strictEq (VStr "57,890.50") (VStr "") && negb (isCheckbox field))
    with false. cbv iota.
  assert (Hp : (1 <=? field_page field)%Z
               && (field_page field <=? Z.of_nat (pageCount w))%Z = true).
  { apply andb_true_intro. split; apply Z.leb_le; apply Hpage. }
  rewrite Hp.
  unfold drawField, bind, ret, measureText, drawText, record.
  change (isCheckbox field) with false. cbv iota.
  change (Js.toStr (VStr "57,890.50")) with "57,890.50".
  rewrite Henc. cbn [forEach ret]. reflexivity.
Qed.

End RenderFacts.

(** ** The claims on concrete renders *)

Lemma condition_absent_or_malformed_witness :
  evaluateCondition (Some "filingStatus.single = true") (VObj []) = Ok true
  /\ evaluateCondition (Some "a ==") (VObj []) = Ok true
  /\ isActive (VObj []) Scenario.malformedField = true.
Proof.
  split; [|split].
  - apply (proj1 (proj2 (proj2 (proj2
             (@condition_absent_or_malformed Scenario.noDates
                Scenario.monoFont))))); reflexivity.
  - apply (proj1 (proj2 (proj2
             (@condition_absent_or_malformed Scenario.noDates
                Scenario.monoFont)))); reflexivity.
  - apply (proj2 (proj2 (proj2 (proj2
             (@condition_absent_or_malformed Scenario.noDates
                Scenario.monoFont)))) "filingStatus.single" (VObj [])
             Scenario.malformedField); reflexivity.
Defined.


Lemma native_checkbox_never_unchecked_witness :
  form (Scenario.render0 Scenario.mixedAnnotation Scenario.incomeData
          noOptions Scenario.checkedWorld).1 !! "c1_1"
  = Some (CheckBox true)
  /\ (@nativeStep Scenario.noDates Scenario.incomeData
        (0, 0)%nat Scenario.uncheckedField Scenario.checkedWorld).1
     = Scenario.checkedWorld
  /\ calls (@coordinateStep Scenario.noDates Scenario.monoFont
              Scenario.incomeData 0%nat Scenario.uncheckedField
              Scenario.checkedWorld).1
     = calls Scenario.checkedWorld.
Proof.
  split; [|split].
  - apply (proj1 (@native_checkbox_never_unchecked Scenario.noDates
                    Scenario.monoFont)).
    reflexivity.
  - apply (proj1 (proj2 (@native_checkbox_never_unchecked Scenario.noDates
                           Scenario.monoFont)) Scenario.incomeData (0, 0)%nat
             Scenario.uncheckedField Scenario.checkedWorld); [reflexivity|].
    vm_compute. discriminate.
  - apply (proj2 (proj2 (@native_checkbox_never_unchecked Scenario.noDates
                           Scenario.monoFont))); [reflexivity|].
    vm_compute. discriminate.
Defined.



Lemma income_total_scenario_witness :
  exists result,
    Scenario.render0
      {| fields := [Scenario.field "line9" "currency" "income.total"
                      Scenario.alignRight None] |}
      Scenario.incomeData noOptions Scenario.onePage
    = (addCall (DrawText 0 "57,890.50"
                  (504 + 72
                   - @widthOfTextAtSize Scenario.monoFont "57,890.50" 10 - 2)%Q
                  (330 + (12 - 10) / 2)%Q 10%Q) ∅ Scenario.onePage,
       Ok result)
    /\ result !! "filledCount" = Some 1%nat
    /\ result !! "fallbackCount" = None
    /\ result !! "errorCount" = None.
Proof.
  destruct (@income_total_scenario Scenario.noDates Scenario.monoFont
              "line9" 1%Z Scenario.rect VUndefined None None None
              (Some "right") noOptions Scenario.onePage)
    as (result & Hr & Hc); [simpl; lia | reflexivity |].
  exists result. split; [exact Hr | exact Hc].
Defined.

(** C9, as stated, fails: with no alignment declared the text is drawn
    at the left inset of the rectangle ([x = 504 + 2], where right
    alignment is [504 + 72 - 2] less the width of the text), and the
    object returned has neither [fallbackCount] nor [errorCount]. *)
Lemma income_total_counterexample :
  exists w' result,
    Scenario.render0
      {| fields := [Scenario.field "line9" "currency" "income.total"
                      noFormat None] |}
      Scenario.incomeData noOptions Scenario.onePage = (w', Ok result)
    /\ calls w' = [DrawText 0 "57,890.50" (504 + 2)%Q (330 + (12 - 10) / 2)%Q 10%Q]
    /\ result !! "filledCount" = Some 1%nat
    /\ result !! "fallbackCount" = None
    /\ result !! "errorCount" = None.
Proof.
  remember (Scenario.render0 _ Scenario.incomeData noOptions Scenario.onePage)
    as out eqn:E.
  vm_compute in E. subst out.
  eexists _, _. split; [reflexivity|]. repeat split.
Qed.

(** * Further properties of the code *)

(** ** Strings, again *)

Lemma filter_append p a b :
  Str.filter p (a +:+ b) = Str.filter p a +:+ Str.filter p b.
Proof.
  induction a as [|c a IH]; simpl; [reflexivity|].
  destruct (p c); simpl; rewrite IH; reflexivity.
Qed.

Lemma forallb_filter p s : Str.forallb p (Str.filter p s) = true.
Proof.
  induction s as [|c s IH]; simpl; [reflexivity|].
  destruct (p c) eqn:Hc; simpl; rewrite ?Hc; exact IH.
Qed.

Lemma filter_id (p q : ascii -> bool) s :
  (forall c, p c = true -> q c = true) ->
  Str.forallb p s = true -> Str.filter q s = s.
Proof.
  intros Hpq. induction s as [|c s IH]; simpl; [reflexivity|].
  intros Hall. apply andb_prop in Hall as [Hc Hall].
  rewrite (Hpq c Hc), (IH Hall). reflexivity.
Qed.

Lemma length_take n s : (String.length (Str.take n s) <= n)%nat.
Proof.
  revert s. induction n as [|n IH]; intros [|c s]; simpl; try lia.
  specialize (IH s). lia.
Qed.

Lemma forallb_take p n s :
  Str.forallb p s = true -> Str.forallb p (Str.take n s) = true.
Proof.
  revert s. induction n as [|n IH]; intros [|c s]; simpl; try reflexivity.
  intros Hall. apply andb_prop in Hall as [Hc Hall].
  rewrite Hc, (IH s Hall). reflexivity.
Qed.

Lemma isDigit_not_dash c :
  Str.isDigit c = true -> negb (Ascii.eqb c "-"%char) = true.
Proof.
  destruct (Ascii.eqb_spec c "-"%char) as [->|]; [discriminate|reflexivity].
Qed.

Lemma isEmpty_length s : Str.isEmpty s = true -> s = EmptyString.
Proof. destruct s; [reflexivity|discriminate]. Qed.

(** ** Identification numbers *)

(** The dashes go in and out of nine digits without a loss. *)
Lemma nine_digits_dashed d :
  String.length d = 9%nat -> Str.forallb Str.isDigit d = true ->
  let ssn := Str.slice 0 3 d +:+ "-" +:+ Str.slice 3 5 d +:+ "-" +:+ Str.drop 5 d in
  let ein := Str.slice 0 2 d +:+ "-" +:+ Str.drop 2 d in
  stripDashes ssn = d
  /\ Str.filter Str.isDigit ssn = d
  /\ Str.filter Str.isDigit ein = d.
Proof.
  intros Hlen Hall.
  destruct d as [|c1 [|c2 [|c3 [|c4 [|c5 [|c6 [|c7 [|c8 [|c9 [|c10 d]]]]]]]]]];
    try discriminate.
  cbn [Str.forallb] in Hall.
  repeat match type of Hall with
         | _ && _ = true => apply andb_prop in Hall as [? Hall]
         end.
  unfold stripDashes.
  cbn [Str.slice Str.take Str.drop Str.filter String.append Nat.sub].
  change (Str.isDigit "-"%char) with false.
  change (Ascii.eqb "-"%char "-"%char) with true.
  cbn [negb].
  repeat match goal with
         | Hd : Str.isDigit ?c = true |- _ =>
             rewrite (isDigit_not_dash c Hd); rewrite Hd; clear Hd
         end.
  repeat split.
Qed.

Section IdentificationNumbers.
Context `{DateEngine}.

Lemma formatValue_ssn value field :
  field_type field = "ssn" ->
  formatValue value field =
  if isBlank value then Ok (VStr "")
  else
    let digits := Str.filter Str.isDigit (Js.toStr value) in
    if (String.length digits =? 9)%nat then
      Ok (VStr (Str.slice 0 3 digits +:+ "-" +:+ Str.slice 3 5 digits
                +:+ "-" +:+ Str.drop 5 digits))
    else Ok (VStr digits).
Proof. intros Ht. unfold formatValue. rewrite Ht. reflexivity. Qed.

Lemma formatValue_ein value field :
  field_type field = "ein" ->
  formatValue value field =
  if isBlank value then Ok (VStr "")
  else
    let einDigits := Str.filter Str.isDigit (Js.toStr value) in
    if (String.length einDigits =? 9)%nat then
      Ok (VStr (Str.slice 0 2 einDigits +:+ "-" +:+ Str.drop 2 einDigits))
    else Ok (VStr einDigits).
Proof. intros Ht. unfold formatValue. rewrite Ht. reflexivity. Qed.

(** X1. Stripping the dashes of a formatted SSN gives back the digits
    of the value: what native placement sets on an SSN field is exactly
    the digits that were in the data. *)
Theorem ssn_dashes_round_trip value field :
  field_type field = "ssn" ->
  isBlank value = false ->
  exists formatted,
    formatValue value field = Ok (VStr formatted)
    /\ stripDashes formatted = Str.filter Str.isDigit (Js.toStr value).
Proof.
  intros Ht Hb. rewrite (formatValue_ssn _ _ Ht), Hb. cbv zeta.
  set (digits := Str.filter Str.isDigit (Js.toStr value)).
  pose proof (forallb_filter Str.isDigit (Js.toStr value)) as Hall.
  fold digits in Hall.
  destruct (String.length digits =? 9)%nat eqn:Hlen.
  - apply Nat.eqb_eq in Hlen. eexists. split; [reflexivity|].
    apply (nine_digits_dashed digits Hlen Hall).
  - exists digits. split; [reflexivity|].
    apply (filter_id Str.isDigit); [apply isDigit_not_dash|exact Hall].
Qed.

(** A string of digits that is not nine digits long formats to itself,
    under either type. *)
Lemma short_digits_fixed digits :
  Str.forallb Str.isDigit digits = true ->
  (String.length digits =? 9)%nat = false ->
  forall (long : string),
    (if isBlank (VStr digits) then Ok (VStr "")
     else
       if (String.length
             (Str.filter Str.isDigit (Js.toStr (VStr digits))) =? 9)%nat
       then Ok (VStr long) else
         Ok (VStr (Str.filter Str.isDigit (Js.toStr (VStr digits)))))
    = Ok (VStr digits).
Proof.
  intros Hall Hlen long.
  change (Js.toStr (VStr digits)) with digits.
  change (isBlank (VStr digits)) with (Str.isEmpty digits).
  destruct (Str.isEmpty digits) eqn:He.
  - rewrite (isEmpty_length _ He). reflexivity.
  - rewrite (filter_id Str.isDigit Str.isDigit digits (fun c Hc => Hc) Hall).
    rewrite Hlen. reflexivity.
Qed.

(** X2. Formatting an SSN or an EIN is idempotent: a value that is
    already formatted formats to itself. *)
Theorem id_number_idempotent value field formatted :
  field_type field = "ssn" \/ field_type field = "ein" ->
  formatValue value field = Ok (VStr formatted) ->
  formatValue (VStr formatted) field = Ok (VStr formatted).
Proof.
  intros Ht.
  set (digits := Str.filter Str.isDigit (Js.toStr value)).
  pose proof (forallb_filter Str.isDigit (Js.toStr value)) as Hall.
  fold digits in Hall.
  assert (Hfix : forall long : string,
             (String.length digits =? 9)%nat = false ->
             Ok (VStr digits) = Ok (VStr formatted) ->
             (if isBlank (VStr formatted) then Ok (VStr "")
              else
                if (String.length
                      (Str.filter Str.isDigit (Js.toStr (VStr formatted)))
                    =? 9)%nat
                then Ok (VStr long)
                else Ok (VStr (Str.filter Str.isDigit
                                 (Js.toStr (VStr formatted)))))
             = Ok (VStr formatted)).
  { intros long Hlen Hf. assert (E : digits = formatted) by congruence.
    rewrite <- E. apply short_digits_fixed; assumption. }
  assert (Hblank : Ok (VStr "") = Ok (VStr formatted) ->
                   forall r : result jsval,
                     (if isBlank (VStr formatted) then Ok (VStr "") else r)
                     = Ok (VStr formatted)).
  { intros Hf r. assert (E : EmptyString = formatted) by congruence.
    rewrite <- E. reflexivity. }
  destruct Ht as [Ht|Ht];
    [rewrite !(formatValue_ssn _ _ Ht) | rewrite !(formatValue_ein _ _ Ht)];
    cbv zeta; fold digits;
    (destruct (isBlank value); [intros Hf; apply Hblank, Hf|]);
    (destruct (String.length digits =? 9)%nat eqn:Hlen;
     [|intros Hf; apply Hfix; [reflexivity|assumption]]);
    apply Nat.eqb_eq in Hlen;
    destruct (nine_digits_dashed digits Hlen Hall) as (_ & Hssn & Hein);
    cbv zeta in Hssn, Hein; intros Hf.
  - set (F := Str.slice 0 3 digits +:+ "-" +:+ Str.slice 3 5 digits
              +:+ "-" +:+ Str.drop 5 digits) in *.
    assert (E : F = formatted) by congruence. rewrite <- E.
    change (Js.toStr (VStr F)) with F.
    change (isBlank (VStr F)) with (Str.isEmpty F).
    rewrite Hssn, Hlen. unfold F.
    rewrite (StrFacts.isEmpty_append_false _ "-" _ eq_refl). reflexivity.
  - set (F := Str.slice 0 2 digits +:+ "-" +:+ Str.drop 2 digits) in *.
    assert (E : F = formatted) by congruence. rewrite <- E.
    change (Js.toStr (VStr F)) with F.
    change (isBlank (VStr F)) with (Str.isEmpty F).
    rewrite Hein, Hlen. unfold F.
    rewrite (StrFacts.isEmpty_append_false _ "-" _ eq_refl). reflexivity.
Qed.

End IdentificationNumbers.

Lemma ssn_dashes_round_trip_witness :
  exists formatted,
    @formatValue Scenario.noDates (VStr "123 45 6789") Scenario.ssnField
    = Ok (VStr formatted)
    /\ stripDashes formatted = "123456789".
Proof.
  apply (@ssn_dashes_round_trip Scenario.noDates (VStr "123 45 6789")
           Scenario.ssnField); reflexivity.
Defined.

Lemma id_number_idempotent_witness :
  @formatValue Scenario.noDates (VStr "12-3456789")
    (Scenario.field "ein" "ein" "employer.ein" noFormat None)
  = Ok (VStr "12-3456789").
Proof.
  apply (@id_number_idempotent Scenario.noDates (VStr "123456789")
           (Scenario.field "ein" "ein" "employer.ein" noFormat None)
           "12-3456789"); [right; reflexivity|reflexivity].
Defined.

(** X3. [formatSSN] of the 1040 script returns at most nine characters,
    all digits, so setting it on a text field whose [maxLength] is nine
    or more does not exceed the field. *)
Theorem formatSSN_fits ssn :
  (String.length (Form1040.formatSSN ssn) <= 9)%nat
  /\ Str.forallb Str.isDigit (Form1040.formatSSN ssn) = true
  /\ (forall name max w,
         (9 <= max)%nat ->
         setText name (Some max) (Form1040.formatSSN ssn) w
         = (addCall (SetText name (Form1040.formatSSN ssn))
              (<[name := TextField
                           (if Str.isEmpty (Form1040.formatSSN ssn) then None
                            else Some (Form1040.formatSSN ssn)) (Some max)]>
                 (form w)) w, Ok tt)).
Proof.
  assert (Hlen : (String.length (Form1040.formatSSN ssn) <= 9)%nat).
  { unfold Form1040.formatSSN. destruct (negb (Js.truthy ssn)); [simpl; lia|].
    apply length_take. }
  split; [exact Hlen|]. split.
  - unfold Form1040.formatSSN. destruct (negb (Js.truthy ssn)); [reflexivity|].
    apply forallb_take, forallb_filter.
  - intros name max w Hmax. unfold setText, record.
    destruct (Nat.ltb_spec max (String.length (Form1040.formatSSN ssn)));
      [lia|reflexivity].
Qed.

Lemma formatSSN_fits_witness :
  setText "f1_06" (Some 9%nat) (Form1040.formatSSN (VStr "123-45-6789"))
    Scenario.ssnWorld
  = (addCall (SetText "f1_06" "123456789")
       (<["f1_06" := TextField (Some "123456789") (Some 9%nat)]>
          (form Scenario.ssnWorld)) Scenario.ssnWorld, Ok tt).
Proof.
  apply (proj2 (proj2 (formatSSN_fits (VStr "123-45-6789"))) "f1_06" 9%nat
           Scenario.ssnWorld).
  lia.
Defined.

Lemma eqb_zero neg m scale :
  Num.eqb (Fin neg m scale) (Num.ofN 0) = (m =? 0)%N.
Proof.
  unfold Num.eqb, Num.ofN, Num.signed.
  change (Z.of_N (Num.pow10 0)) with 1%Z.
  destruct (N.eqb_spec m 0) as [->|Hm].
  - destruct neg; reflexivity.
  - apply Z.eqb_neq. destruct neg; lia.
Qed.

Section CurrencyPolicies.
Context `{DateEngine}.

(** X4. Away from zero the two currency formatters agree: for a value
    that does not parse to zero, the generic formatter under default
    options returns what [formatCurrency] of the 1040 script returns. *)
Theorem currency_formatters_agree value field :
  field_type field = "currency" ->
  decimalPlaces (field_format field) = None ->
  currencySymbol (field_format field) = false ->
  Num.isZero (Js.parseFloat value) = false ->
  formatValue value field = (let? s := formatCurrency value in Ok (VStr s)).
Proof.
  intros Ht Hd Hc Hz. unfold formatValue, formatCurrency.
  rewrite Ht, Hd, Hc.
  destruct (isBlank value); [reflexivity|].
  cbn [String.eqb Ascii.eqb Bool.eqb default].
  destruct (Js.parseFloat value) as [|neg|neg m scale] eqn:Hp;
    cbn [Num.isNaN orb]; try reflexivity.
  rewrite eqb_zero. cbn [Num.isZero] in Hz. rewrite Hz.
  destruct (Num.toLocaleString (Fin neg m scale) 2); reflexivity.
Qed.

End CurrencyPolicies.

Lemma currency_formatters_agree_witness :
  @formatValue Scenario.noDates (Scenario.num 12345 1)
    (Scenario.field "line9" "currency" "income.total" noFormat None)
  = (let? s := formatCurrency (Scenario.num 12345 1) in Ok (VStr s)).
Proof.
  apply (@currency_formatters_agree Scenario.noDates (Scenario.num 12345 1)
           (Scenario.field "line9" "currency" "income.total" noFormat None));
    reflexivity.
Defined.

(** ** The [sum] transform *)

Lemma add_zero x :
  isNegativeZero x = false -> Num.add x (Num.ofN 0) = x.
Proof.
  destruct x as [|neg|neg m scale]; try reflexivity.
  intros Hx. unfold Num.add, Num.ofN, Num.signed.
  rewrite Nat.max_0_r, Nat.sub_0_r.
  change (Z.of_N (Num.pow10 (0 - scale))) with 1%Z.
  destruct (N.eqb_spec m 0) as [->|Hm].
  - destruct neg; [discriminate|reflexivity].
  - destruct neg.
    + replace (- Z.of_N m * 1 + Z.of_N 0 * Z.of_N (Num.pow10 scale))%Z
        with (- Z.of_N m)%Z by lia.
      destruct (Z.eqb_spec (- Z.of_N m) 0); [lia|].
      destruct (Z.ltb_spec (- Z.of_N m) 0); [|lia].
      rewrite Zabs2N.inj_opp, Zabs2N.id. reflexivity.
    + replace (Z.of_N m * 1 + Z.of_N 0 * Z.of_N (Num.pow10 scale))%Z
        with (Z.of_N m) by lia.
      destruct (Z.eqb_spec (Z.of_N m) 0); [lia|].
      destruct (Z.ltb_spec (Z.of_N m) 0); [lia|].
      rewrite Zabs2N.id. reflexivity.
Qed.

Lemma add_not_negative_zero x y :
  isNegativeZero x = false -> isNegativeZero (Num.add x y) = false.
Proof.
  destruct x as [|a|a m s], y as [|b|b n t]; try reflexivity.
  - cbn. destruct (Bool.eqb a b); reflexivity.
  - intros Hx. unfold Num.add.
    destruct (_ =? 0)%Z eqn:Hz.
    + cbn [isNegativeZero]. destruct a; [|reflexivity].
      cbn [isNegativeZero] in Hx. rewrite Hx.
      destruct b; reflexivity.
    + cbn [isNegativeZero]. apply Z.eqb_neq in Hz.
      destruct (_ <? 0)%Z; [|reflexivity].
      apply N.eqb_neq. lia.
Qed.

Lemma sum_from_not_negative_zero items :
  forall acc,
    isNegativeZero acc = false ->
    isNegativeZero
      (fold_left (fun sum v => Num.add sum (parseFloatOrZero v)) items acc)
    = false.
Proof.
  induction items as [|v items IH]; intros acc Hacc; [exact Hacc|].
  cbn [fold_left]. apply IH, add_not_negative_zero, Hacc.
Qed.

(** X5. The [sum] transform adds nothing for an element that is not
    numeric ([null], a missing value, a word): the sum of a sequence is
    the sum of the sequence without that element. *)
Theorem sum_skips_non_numeric before v after :
  Num.isNaN (Js.parseFloat v) = true ->
  applyTransform (VArr (before ++ v :: after)) (Some "sum")
  = applyTransform (VArr (before ++ after)) (Some "sum").
Proof.
  intros Hv.
  change (VNum (sumOf (before ++ v :: after)) = VNum (sumOf (before ++ after))).
  f_equal. unfold sumOf. rewrite !fold_left_app. cbn [fold_left].
  assert (Hz : parseFloatOrZero v = Num.ofN 0).
  { unfold parseFloatOrZero. rewrite Hv. reflexivity. }
  rewrite Hz, add_zero; [reflexivity|].
  apply sum_from_not_negative_zero. reflexivity.
Qed.

Lemma sum_skips_non_numeric_witness :
  applyTransform
    (VArr ([Scenario.num 10 0; VStr "20"] ++ VNull :: [])) (Some "sum")
  = applyTransform (VArr ([Scenario.num 10 0; VStr "20"] ++ [])) (Some "sum").
Proof.
  apply (sum_skips_non_numeric [Scenario.num 10 0; VStr "20"] VNull []).
  reflexivity.
Defined.

(** ** Paths with and without brackets *)

Lemma includes_bracket_cons c s :
  Str.includes "[" (String c s) = false ->
  Ascii.eqb c "["%char = false /\ Str.includes "[" s = false.
Proof.
  cbn [Str.includes]. rewrite StrFacts.prefix_cons, StrFacts.prefix_nil.
  rewrite andb_true_r, Ascii.eqb_sym. apply orb_false_elim.
Qed.

(** Where there is no opening bracket there is no wildcard marker. *)
Lemma no_bracket_no_wildcard a b :
  Str.includes "[" a = false ->
  Str.includes wildcard (a +:+ b) = Str.includes wildcard b.
Proof.
  induction a as [|c a IH]; intros Ha; [reflexivity|].
  apply includes_bracket_cons in Ha as [Hc Ha].
  change (String c a +:+ b) with (String c (a +:+ b)).
  cbn [Str.includes]. unfold wildcard at 1. rewrite StrFacts.prefix_cons.
  rewrite Ascii.eqb_sym, Hc. cbn [andb orb]. apply IH, Ha.
Qed.

Lemma replaceIndex_no_bracket a b :
  Str.includes "[" a = false ->
  replaceIndex_go None (a +:+ b) = a +:+ replaceIndex_go None b.
Proof.
  induction a as [|c a IH]; intros Ha; [reflexivity|].
  apply includes_bracket_cons in Ha as [Hc Ha].
  change (String c a +:+ b) with (String c (a +:+ b)).
  cbn [replaceIndex_go]. rewrite Hc, (IH Ha). reflexivity.
Qed.

Lemma append_empty_r s : s +:+ "" = s.
Proof. induction s as [|c s IH]; simpl; [reflexivity|]. rewrite IH. reflexivity. Qed.

Lemma append_assoc a b c : (a +:+ b) +:+ c = a +:+ b +:+ c.
Proof. induction a as [|x a IH]; simpl; [reflexivity|]. rewrite IH. reflexivity. Qed.

Lemma digits_no_bracket ds :
  Str.forallb Str.isDigit ds = true -> Str.includes "[" ds = false.
Proof.
  induction ds as [|c ds IH]; [reflexivity|]. cbn [Str.forallb].
  intros Hall. apply andb_prop in Hall as [Hc Hall].
  cbn [Str.includes]. rewrite StrFacts.prefix_cons, StrFacts.prefix_nil.
  rewrite (IH Hall), andb_true_r, orb_false_r.
  destruct (Ascii.eqb_spec "["%char c) as [<-|]; [discriminate|reflexivity].
Qed.

(** The digits after an opening bracket are kept aside. *)
Lemma replaceIndex_digits ds :
  Str.forallb Str.isDigit ds = true ->
  forall acc s,
    replaceIndex_go (Some acc) (ds +:+ s)
    = replaceIndex_go (Some (acc +:+ ds)) s.
Proof.
  induction ds as [|c ds IH]; intros Hall acc s.
  - rewrite append_empty_r. reflexivity.
  - cbn [Str.forallb] in Hall. apply andb_prop in Hall as [Hc Hall].
    change (String c ds +:+ s) with (String c (ds +:+ s)).
    cbn [replaceIndex_go]. rewrite Hc, (IH Hall).
    rewrite append_assoc. reflexivity.
Qed.

(** An index in brackets is rewritten to a key after a dot. *)
Lemma replaceIndex_index p ds q :
  Str.includes "[" p = false ->
  Str.forallb Str.isDigit ds = true -> Str.isEmpty ds = false ->
  replaceIndex (p +:+ "[" +:+ ds +:+ "]" +:+ q)
  = replaceIndex (p +:+ "." +:+ ds +:+ q).
Proof.
  intros Hp Hds Hne. unfold replaceIndex.
  rewrite (replaceIndex_no_bracket p _ Hp).
  change ("[" +:+ ds +:+ "]" +:+ q) with (String "[" (ds +:+ "]" +:+ q)).
  cbn [replaceIndex_go]. change (Ascii.eqb "[" "[") with true. cbv iota.
  rewrite (replaceIndex_digits ds Hds).
  change ("]" +:+ q) with (String "]" q). cbn [replaceIndex_go].
  change (Str.isDigit "]") with false. change (Ascii.eqb "]" "]") with true.
  change ("" +:+ ds) with ds. rewrite Hne. cbn [negb andb].
  rewrite <- (append_assoc "." ds q), <- (append_assoc p ("." +:+ ds) q).
  rewrite <- (append_assoc p "." ds).
  rewrite (replaceIndex_no_bracket ((p +:+ ".") +:+ ds) q).
  - rewrite !append_assoc. reflexivity.
  - rewrite append_assoc.
    assert (Hd : Str.includes "[" ("." +:+ ds) = false).
    { change ("." +:+ ds) with (String "." ds). cbn [Str.includes].
      rewrite StrFacts.prefix_cons, (digits_no_bracket ds Hds). reflexivity. }
    clear -Hp Hd. induction p as [|c p IH]; [exact Hd|].
    apply includes_bracket_cons in Hp as [Hc Hp].
    change (String c p +:+ "." +:+ ds) with (String c (p +:+ "." +:+ ds)).
    cbn [Str.includes]. rewrite StrFacts.prefix_cons, StrFacts.prefix_nil.
    rewrite (IH Hp), Ascii.eqb_sym, Hc. reflexivity.
Qed.

(** X6. On a path without brackets the resolver of the renderer and the
    resolver of the 1040 script return the same. *)
Theorem resolvers_agree obj pathStr arg :
  Str.isEmpty pathStr = false ->
  Str.includes "[" pathStr = false ->
  getNestedValue obj pathStr arg = Form1040.getNestedValue obj pathStr arg.
Proof.
  intros He Hb.
  pose proof (replaceIndex_no_bracket pathStr "" Hb) as Hr.
  pose proof (no_bracket_no_wildcard pathStr "" Hb) as Hw.
  change (replaceIndex_go None "") with EmptyString in Hr.
  change (Str.includes wildcard "") with false in Hw.
  rewrite append_empty_r in Hr, Hw.
  rewrite getNestedValue_plain by assumption.
  unfold Form1040.getNestedValue, pathKeys, replaceIndex. rewrite Hr.
  reflexivity.
Qed.

Lemma resolvers_agree_witness :
  getNestedValue Scenario.incomeData "income.total" VUndefined
  = Form1040.getNestedValue Scenario.incomeData "income.total" VUndefined.
Proof.
  apply (resolvers_agree Scenario.incomeData "income.total" VUndefined);
    reflexivity.
Defined.

(** X7. An index in brackets is another way to write a key: a path
    [p[n]q] resolves as [p.n q] does. *)
Theorem index_is_a_key obj p ds q arg :
  Str.includes "[" p = false ->
  Str.forallb Str.isDigit ds = true -> Str.isEmpty ds = false ->
  Str.includes wildcard q = false ->
  getNestedValue obj (p +:+ "[" +:+ ds +:+ "]" +:+ q) arg
  = getNestedValue obj (p +:+ "." +:+ ds +:+ q) arg.
Proof.
  intros Hp Hds Hne Hq.
  assert (Hw1 : Str.includes wildcard (p +:+ "[" +:+ ds +:+ "]" +:+ q) = false).
  { rewrite (no_bracket_no_wildcard p _ Hp).
    change ("[" +:+ ds +:+ "]" +:+ q) with (String "[" (ds +:+ "]" +:+ q)).
    cbn [Str.includes]. unfold wildcard at 1.
    destruct ds as [|d ds]; [discriminate|].
    cbn [Str.forallb] in Hds. apply andb_prop in Hds as [Hd Hds].
    change (String d ds +:+ "]" +:+ q) with (String d (ds +:+ "]" +:+ q)).
    rewrite !StrFacts.prefix_cons.
    assert (Hs : Ascii.eqb "*" d = false).
    { destruct (Ascii.eqb_spec "*"%char d) as [<-|]; [discriminate|reflexivity]. }
    rewrite Hs, andb_false_r. cbn [orb].
    change (String d (ds +:+ "]" +:+ q)) with (String d ds +:+ "]" +:+ q).
    rewrite (no_bracket_no_wildcard (String d ds)).
    - rewrite (no_bracket_no_wildcard "]" q eq_refl). exact Hq.
    - apply digits_no_bracket. cbn [Str.forallb]. rewrite Hd, Hds. reflexivity. }
  assert (Hw2 : Str.includes wildcard (p +:+ "." +:+ ds +:+ q) = false).
  { rewrite (no_bracket_no_wildcard p _ Hp).
    rewrite (no_bracket_no_wildcard "." _ eq_refl).
    rewrite (no_bracket_no_wildcard ds q (digits_no_bracket ds Hds)).
    exact Hq. }
  rewrite !getNestedValue_plain;
    try assumption;
    try (apply (StrFacts.isEmpty_append_false p _ _); reflexivity).
  unfold pathKeys. rewrite (replaceIndex_index p ds q Hp Hds Hne). reflexivity.
Qed.

Lemma index_is_a_key_witness :
  getNestedValue Scenario.wildcardData ("a" +:+ "[" +:+ "1" +:+ "]" +:+ ".b")
    VUndefined
  = getNestedValue Scenario.wildcardData ("a" +:+ "." +:+ "1" +:+ ".b")
      VUndefined.
Proof.
  apply (index_is_a_key Scenario.wildcardData "a" "1" ".b" VUndefined);
    reflexivity.
Defined.

(** ** Conditions that parse *)

Lemma rev_append_rev_append s :
  forall a b, Str.rev_append (Str.rev_append s a) b = Str.rev_append a (s +:+ b).
Proof.
  induction s as [|c s IH]; intros a b; [reflexivity|].
  cbn [Str.rev_append]. rewrite IH. reflexivity.
Qed.

Lemma rev_involutive s : Str.rev (Str.rev s) = s.
Proof.
  unfold Str.rev. rewrite rev_append_rev_append. cbn [Str.rev_append].
  apply append_empty_r.
Qed.

Lemma forallb_rev_append p s :
  forall acc,
    Str.forallb p (Str.rev_append s acc) = Str.forallb p s && Str.forallb p acc.
Proof.
  induction s as [|c s IH]; intros acc; [reflexivity|].
  cbn [Str.rev_append Str.forallb]. rewrite IH. cbn [Str.forallb].
  destruct (p c), (Str.forallb p s); reflexivity.
Qed.

Lemma dropWhile_none p s :
  Str.forallb (fun c => negb (p c)) s = true -> Str.dropWhile p s = s.
Proof.
  destruct s as [|c s]; [reflexivity|]. cbn [Str.forallb Str.dropWhile].
  intros Hall. apply andb_prop in Hall as [Hc _].
  apply negb_true_iff in Hc. rewrite Hc. reflexivity.
Qed.

Lemma trim_without_space s :
  Str.forallb (fun c => negb (Str.isSpace c)) s = true -> Str.trim s = s.
Proof.
  intros Hall. unfold Str.trim, Str.trimStart, Str.trimEnd.
  rewrite (dropWhile_none _ s Hall), dropWhile_none; [apply rev_involutive|].
  unfold Str.rev. rewrite forallb_rev_append, Hall. reflexivity.
Qed.

Lemma operandChar_facts c :
  isOperandChar c = true ->
  Str.isSpace c = false /\ Ascii.eqb "="%char c = false
  /\ Ascii.eqb "!"%char c = false /\ Str.isLineTerminator c = false.
Proof.
  unfold isOperandChar. intros Hc. apply negb_true_iff in Hc.
  apply orb_false_elim in Hc as [Hc Hb]. apply orb_false_elim in Hc as [Hs He].
  rewrite (Ascii.eqb_sym "=" c), (Ascii.eqb_sym "!" c).
  repeat split; try assumption.
  unfold Str.isSpace, Str.isLineTerminator in *.
  destruct (N.eqb_spec (Str.code c) 10) as [E|_];
    [rewrite E in Hs; discriminate|].
  destruct (N.eqb_spec (Str.code c) 13) as [E|_];
    [rewrite E in Hs; discriminate|reflexivity].
Qed.

Lemma cleanPath_no_space s :
  Str.forallb isOperandChar s = true ->
  Str.forallb (fun c => negb (Str.isSpace c)) s = true.
Proof.
  induction s as [|c s IH]; [reflexivity|]. cbn [Str.forallb].
  intros Hall. apply andb_prop in Hall as [Hc Hall].
  destruct (operandChar_facts c Hc) as (-> & _). rewrite (IH Hall). reflexivity.
Qed.

(** No operator starts inside the path operand. *)
Lemma matchOperator_inside c r s :
  isOperandChar c = true -> matchOperator (String c r +:+ s) = None.
Proof.
  intros Hc. destruct (operandChar_facts c Hc) as (Hs & He & Hb & _).
  unfold matchOperator.
  change (String c r +:+ s) with (String c (r +:+ s)).
  cbn [Str.dropWhile]. rewrite Hs.
  unfold operators. cbn [matchAlternatives].
  rewrite !StrFacts.prefix_cons, He, Hb. reflexivity.
Qed.

Lemma matchCondition_go_operand p :
  forall group1 s op e,
    Str.forallb isOperandChar p = true ->
    matchOperator s = Some (op, e) ->
    matchCondition_go group1 (p +:+ s) = Some (group1 +:+ p, op, e).
Proof.
  induction p as [|c p IH]; intros group1 s op e Hall Hop.
  - rewrite append_empty_r. change ("" +:+ s) with s.
    destruct s; cbn [matchCondition_go]; rewrite Hop; reflexivity.
  - cbn [Str.forallb] in Hall. apply andb_prop in Hall as [Hc Hall].
    pose proof (matchOperator_inside c p s Hc) as Hin.
    change (String c p +:+ s) with (String c (p +:+ s)) in *.
    cbn [matchCondition_go]. rewrite Hin.
    destruct (operandChar_facts c Hc) as (_ & _ & _ & ->).
    rewrite (IH _ s op e Hall Hop), append_assoc. reflexivity.
Qed.

Lemma matchCondition_operand p s op e :
  cleanPath p = true ->
  matchOperator s = Some (op, e) ->
  matchCondition (p +:+ s) = Some (p, op, e).
Proof.
  unfold cleanPath. intros Hp Hop. apply andb_prop in Hp as [Hne Hall].
  destruct p as [|c p]; [discriminate|].
  cbn [Str.forallb] in Hall. apply andb_prop in Hall as [Hc Hall].
  change (String c p +:+ s) with (String c (p +:+ s)).
  cbn [matchCondition].
  destruct (operandChar_facts c Hc) as (_ & _ & _ & ->).
  rewrite (matchCondition_go_operand p _ s op e Hall Hop). reflexivity.
Qed.

Lemma matchExpected_literal lit :
  cleanLiteral lit = true -> matchExpected (String " " lit) = Some lit.
Proof.
  destruct lit as [|c l]; [discriminate|]. unfold cleanLiteral.
  intros Hl. apply andb_prop in Hl as [Hc Hall].
  apply negb_true_iff in Hc.
  cbn [matchExpected]. change (Str.isSpace " ") with true. cbv iota.
  rewrite Hc. cbn [Str.isEmpty negb andb]. rewrite Hall. reflexivity.
Qed.

(** The four operators, each between two spaces, before a literal. *)
Lemma matchOperator_spaced lit :
  cleanLiteral lit = true ->
  matchOperator (" === " +:+ lit) = Some ("===", lit)
  /\ matchOperator (" == " +:+ lit) = Some ("==", lit)
  /\ matchOperator (" !== " +:+ lit) = Some ("!==", lit)
  /\ matchOperator (" != " +:+ lit) = Some ("!=", lit).
Proof.
  intros Hl. pose proof (matchExpected_literal lit Hl) as He.
  unfold matchOperator, operators.
  repeat split;
    cbn [String.append Str.dropWhile];
    repeat (change (Str.isSpace " ") with true; cbv iota);
    repeat (change (Str.isSpace "=") with false; cbv iota);
    repeat (change (Str.isSpace "!") with false; cbv iota);
    cbn [matchAlternatives];
    rewrite !StrFacts.prefix_cons, ?StrFacts.prefix_nil;
    cbn [Ascii.eqb Bool.eqb andb String.length Str.drop];
    rewrite He; reflexivity.
Qed.

(** X8. A condition [<path> <operator> <literal>] compares the value at
    the path with the parsed literal, strictly: [==] does what [===]
    does, and [!=] and [!==] give the opposite answer. *)
Theorem condition_compares_strictly data p lit v :
  cleanPath p = true ->
  cleanLiteral lit = true ->
  getNestedValue data p VUndefined = Ok v ->
  evaluateCondition (Some (p +:+ " === " +:+ lit)) data
  = Ok (Js.strictEq v (parseExpected lit))
  /\ evaluateCondition (Some (p +:+ " == " +:+ lit)) data
     = Ok (Js.strictEq v (parseExpected lit))
  /\ evaluateCondition (Some (p +:+ " !== " +:+ lit)) data
     = Ok (negb (Js.strictEq v (parseExpected lit)))
  /\ evaluateCondition (Some (p +:+ " != " +:+ lit)) data
     = Ok (negb (Js.strictEq v (parseExpected lit))).
Proof.
  intros Hp Hl Hv.
  destruct (matchOperator_spaced lit Hl) as (H1 & H2 & H3 & H4).
  assert (Ht : Str.trim p = p).
  { apply trim_without_space, cleanPath_no_space.
    unfold cleanPath in Hp. apply andb_prop in Hp as [_ Hp]. exact Hp. }
  assert (Hne : forall s, Str.isEmpty (p +:+ s) = false).
  { intros s. unfold cleanPath in Hp. destruct p; [discriminate|reflexivity]. }
  unfold evaluateCondition. rewrite !Hne.
  rewrite (matchCondition_operand p _ _ _ Hp H1).
  rewrite (matchCondition_operand p _ _ _ Hp H2).
  rewrite (matchCondition_operand p _ _ _ Hp H3).
  rewrite (matchCondition_operand p _ _ _ Hp H4).
  rewrite Ht, Hv. repeat split.
Qed.

Lemma condition_compares_strictly_witness :
  evaluateCondition (Some ("digitalAssets.hasActivity" +:+ " === " +:+ "true"))
    Scenario.activityData = Ok true
  /\ evaluateCondition (Some ("digitalAssets.hasActivity" +:+ " != " +:+ "true"))
       Scenario.activityData = Ok false.
Proof.
  destruct (condition_compares_strictly Scenario.activityData
              "digitalAssets.hasActivity" "true" (VBool true))
    as (H1 & _ & _ & H4); [reflexivity | reflexivity | reflexivity |].
  split; [exact H1 | exact H4].
Defined.

(** ** More on the render passes *)

Section RenderCoverage.
Context `{DateEngine} `{Font}.

(** X9. A field whose page the document does not have is skipped with
    a warning: nothing is drawn, the count is unchanged, and the pass goes
    on with the remaining fields. *)
Theorem missing_page_is_skipped data n field rest w fv :
  isActive data field = true ->
  formattedResult data field = Ok fv ->
  Js.strictEq fv (VStr "") && negb (isCheckbox field) = false ->
  (field_page field < 1 \/ Z.of_nat (pageCount w) < field_page field)%Z ->
  let w' :=
    addWarning ("Page " +:+ Num.digitsOfZ (field_page field)
                +:+ " not found for field " +:+ field_id field) w in
  coordinateStep data n field w = (w', Ok n)
  /\ forEach (coordinateStep data) n (field :: rest) w
     = forEach (coordinateStep data) n rest w'.
Proof.
  intros Ha Hf He Hpage w'.
  assert (Hs : coordinateStep data n field w = (w', Ok n)).
  { rewrite coordinateStep_active, Hf, He by assumption.
    destruct ((1 <=? field_page field)%Z
              && (field_page field <=? Z.of_nat (pageCount w))%Z) eqn:Hp;
      [|reflexivity].
    apply andb_prop in Hp as [H1 H2].
    apply Z.leb_le in H1. apply Z.leb_le in H2. lia. }
  split; [exact Hs|]. rewrite forEach_cons, Hs. reflexivity.
Qed.

(** *** Counting *)

Lemma NativeStep_count data field w w' d :
  NativeStep data field w w' (Ok d) ->
  length (calls w') = (length (calls w) + fst d)%nat.
Proof.
  intros Hs. inversion Hs as [| | | |fv w1 placed Ha Hn Hf He Ho]; subst;
    cbn [fst]; try lia.
  destruct Ho; cbn [calls addCall addWarning]; rewrite ?length_app;
    cbn [length]; lia.
Qed.

Lemma native_pass_count data fs :
  forall a b w w' a' b',
    forEach (nativeStep data) (a, b) fs w = (w', Ok (a', b')) ->
    (length (calls w') + a = length (calls w) + a')%nat.
Proof.
  induction fs as [|field fs IH]; intros a b w w' a' b' Hp.
  - cbn in Hp. injection Hp as <- <- <-. reflexivity.
  - destruct (nativeStep_spec data field w) as (w1 & r & Hs & Hstep).
    rewrite forEach_cons, Hstep in Hp.
    destruct r as [[da db]|e]; [|discriminate].
    cbn [addCounts fst snd] in Hp.
    apply IH in Hp. apply NativeStep_count in Hs. cbn [fst] in Hs. lia.
Qed.

Lemma coordinate_pass_count data fs :
  forall n w w' n',
    forEach (coordinateStep data) n fs w = (w', Ok n') ->
    (length (calls w') + n = length (calls w) + n')%nat.
Proof.
  induction fs as [|field fs IH]; intros n w w' n' Hp.
  - cbn in Hp. injection Hp as <- <-. reflexivity.
  - rewrite forEach_cons in Hp.
    destruct (coordinateStep_cases data n field w)
      as [Hs|[[e Hs]|[[msg Hs]|(p & text & x & y & size & Hs)]]];
      rewrite Hs in Hp; try discriminate; apply IH in Hp;
      cbn [calls addCall addWarning] in Hp; rewrite ?length_app in Hp;
      cbn [length] in Hp; lia.
Qed.

(** X10. The [filledCount] a render returns is the number of placement
    calls the render made on the document. *)
Theorem filledCount_counts_calls annotation data options w w' result :
  render annotation data options w = (w', Ok result) ->
  result !! "filledCount"
  = Some (length (calls w') - length (calls w))%nat.
Proof.
  destruct (useNative annotation options) eqn:Hu.
  - rewrite render_native by assumption. unfold twoPasses, bind, ret.
    destruct (forEach (nativeStep data) (0, 0)%nat _ w)
      as [w1 [[a1 b1]|e]] eqn:H1; [|discriminate].
    destruct (forEach (coordinateStep data) 0%nat _ w1)
      as [w2 [c|e]] eqn:H2; [|discriminate].
    intros Hr. injection Hr as <- <-.
    apply native_pass_count in H1. apply coordinate_pass_count in H2.
    unfold nativeResult. rewrite lookup_insert_ne by discriminate.
    rewrite lookup_insert_eq. cbn [fst]. f_equal. lia.
  - rewrite render_coordinates by assumption. unfold fillWithCoordinates.
    destruct (forEach (coordinateStep data) 0%nat (fields annotation) w)
      as [w1 [n|e]] eqn:H1; [|discriminate].
    intros Hr. injection Hr as <- <-.
    apply coordinate_pass_count in H1.
    rewrite lookup_insert_eq. f_equal. lia.
Qed.

(** X11. Under native mode the [fallbackCount] a render returns is the
    number of fields without a native identifier whose condition
    holds. *)
Theorem fallbackCount_counts_fields annotation data options w w' result :
  useNative annotation options = true ->
  render annotation data options w = (w', Ok result) ->
  result !! "fallbackCount" = Some (activeLacking data (fields annotation)).
Proof.
  intros Hu. rewrite render_native by assumption. unfold twoPasses, bind, ret.
  destruct (forEach (nativeStep data) (0, 0)%nat _ w) as [w1 [[a1 b1]|e]];
    [|discriminate].
  destruct (forEach (coordinateStep data) 0%nat _ w1) as [w2 [c|e]];
    [|discriminate].
  intros Hr. injection Hr as _ <-. unfold nativeResult. cbn [snd].
  apply lookup_insert_eq.
Qed.

(** *** What a render leaves as it is *)

Lemma SameShape_refl w : SameShape w w.
Proof. intros name. reflexivity. Qed.

Lemma SameShape_trans w1 w2 w3 :
  SameShape w1 w2 -> SameShape w2 w3 -> SameShape w1 w3.
Proof. intros H12 H23 name. rewrite H23. apply H12. Qed.

Lemma SameShape_insert name f f' w c :
  form w !! name = Some f -> shape f' = shape f ->
  SameShape w (addCall c (<[name := f']> (form w)) w).
Proof.
  intros Hl Hs other. cbn [form addCall].
  destruct (decide (name = other)) as [<-|Hne].
  - rewrite lookup_insert_eq, Hl. cbn. rewrite Hs. reflexivity.
  - rewrite lookup_insert_ne by assumption. reflexivity.
Qed.

Lemma nativeStep_shape data counts field w :
  SameShape w (nativeStep data counts field w).1.
Proof.
  destruct (nativeStep_spec data field w) as (w' & r & Hs & ->). cbn [fst].
  destruct Hs as [| | | |fv w' placed Ha Hn Hf He Ho];
    try apply SameShape_refl.
  destruct Ho as [| c Hc Ht Hl | old ml text Hc Hl Ht | e _];
    try apply SameShape_refl.
  - eapply SameShape_insert; [exact Hl|reflexivity].
  - eapply SameShape_insert; [exact Hl|reflexivity].
  - intros name. reflexivity.
Qed.

Lemma coordinateStep_form data n field w :
  form (coordinateStep data n field w).1 = form w.
Proof.
  destruct (coordinateStep_cases data n field w)
    as [->|[[e ->]|[[msg ->]|(p & text & x & y & size & ->)]]]; reflexivity.
Qed.

Lemma coordinate_pass_form data fs :
  forall n w, form (forEach (coordinateStep data) n fs w).1 = form w.
Proof.
  apply (forEach_respects (coordinateStep data)
           (fun w w' => form w' = form w)).
  - reflexivity.
  - intros w1 w2 w3 H12 H23. rewrite H23. exact H12.
  - apply coordinateStep_form.
Qed.

(** X12. A render never adds or removes a field of the form, and never
    changes the kind of a field or the [maxLength] of a text field: it
    only checks boxes and sets texts. *)
Theorem render_keeps_form_shape annotation data options w :
  SameShape w (render annotation data options w).1.
Proof.
  assert (Hn : forall fs acc w0,
             SameShape w0 (forEach (nativeStep data) acc fs w0).1).
  { apply forEach_respects;
      [apply SameShape_refl | apply SameShape_trans | apply nativeStep_shape]. }
  assert (Hc : forall fs n w0,
             SameShape w0 (forEach (coordinateStep data) n fs w0).1).
  { intros fs n w0 name. rewrite coordinate_pass_form. reflexivity. }
  destruct (useNative annotation options) eqn:Hu.
  - rewrite render_native by assumption. unfold twoPasses, bind, ret.
    specialize (Hn (List.filter hasNativeId (fields annotation)) (0, 0)%nat w).
    destruct (forEach (nativeStep data) (0, 0)%nat _ w) as [w1 [counts|e]];
      cbn [fst] in *; [|exact Hn].
    specialize (Hc (List.filter (fun f => negb (hasNativeId f))
                      (fields annotation)) 0%nat w1).
    destruct (forEach (coordinateStep data) 0%nat _ w1) as [w2 [c|e]];
      cbn [fst] in *; eapply SameShape_trans; eassumption.
  - rewrite render_coordinates by assumption. unfold fillWithCoordinates.
    specialize (Hc (fields annotation) 0%nat w).
    destruct (forEach (coordinateStep data) 0%nat (fields annotation) w)
      as [w' [n|e]]; exact Hc.
Qed.

(** X13. With [useNativeFields: false] a render leaves the form of the
    document as it is, whatever native identifiers the fields declare:
    every call it makes draws text, at most one call for each field. *)
Theorem coordinates_only_draw annotation data options w :
  useNativeFields options = VBool false ->
  form (render annotation data options w).1 = form w
  /\ CallsAdded isDrawCall (length (fields annotation)) w
       (render annotation data options w).1.
Proof.
  intros Ho.
  assert (Hu : useNative annotation options = false).
  { unfold useNative. rewrite Ho. reflexivity. }
  rewrite render_coordinates by assumption. unfold fillWithCoordinates.
  pose proof (coordinate_pass_form data (fields annotation) 0%nat w) as Hf.
  pose proof (forEach_calls (coordinateStep data) isDrawCall
                (coordinateStep_calls data) (fields annotation) 0%nat w) as Hc.
  destruct (forEach (coordinateStep data) 0%nat (fields annotation) w)
    as [w' [n|e]]; split; assumption.
Qed.

End RenderCoverage.

Lemma missing_page_is_skipped_witness :
  let field := Scenario.field "line9" "currency" "income.total" noFormat None in
  let w' := addWarning "Page 1 not found for field line9" Scenario.noPages in
  @coordinateStep Scenario.noDates Scenario.monoFont Scenario.incomeData
    0%nat field Scenario.noPages = (w', Ok 0%nat)
  /\ forEach (@coordinateStep Scenario.noDates Scenario.monoFont
                Scenario.incomeData) 0%nat [field; field] Scenario.noPages
     = forEach (@coordinateStep Scenario.noDates Scenario.monoFont
                  Scenario.incomeData) 0%nat [field] w'.
Proof.
  apply (@missing_page_is_skipped Scenario.noDates Scenario.monoFont
           Scenario.incomeData 0%nat
           (Scenario.field "line9" "currency" "income.total" noFormat None)
           [Scenario.field "line9" "currency" "income.total" noFormat None]
           Scenario.noPages (VStr "57,890.50"));
    [reflexivity | reflexivity | reflexivity | right; simpl; lia].
Defined.

Lemma filledCount_counts_calls_witness :
  exists result,
    (Scenario.render0 Scenario.mixedAnnotation Scenario.incomeData noOptions
       Scenario.onePage).2 = Ok result
    /\ result !! "filledCount"
       = Some (length (calls (Scenario.render0 Scenario.mixedAnnotation
                                Scenario.incomeData noOptions
                                Scenario.onePage).1)
               - length (calls Scenario.onePage))%nat.
Proof.
  eexists. split; [vm_compute; reflexivity|].
  apply (@filledCount_counts_calls Scenario.noDates Scenario.monoFont
           Scenario.mixedAnnotation Scenario.incomeData noOptions
           Scenario.onePage).
  vm_compute. reflexivity.
Defined.

Lemma fallbackCount_counts_fields_witness :
  exists result,
    (Scenario.render0 Scenario.mixedAnnotation Scenario.incomeData noOptions
       Scenario.onePage).2 = Ok result
    /\ result !! "fallbackCount" = Some 1%nat.
Proof.
  eexists. split; [vm_compute; reflexivity|].
  apply (@fallbackCount_counts_fields Scenario.noDates Scenario.monoFont
           Scenario.mixedAnnotation Scenario.incomeData noOptions
           Scenario.onePage
           (Scenario.render0 Scenario.mixedAnnotation Scenario.incomeData
              noOptions Scenario.onePage).1);
    [reflexivity | vm_compute; reflexivity].
Defined.

Lemma coordinates_only_draw_witness :
  form (Scenario.render0 Scenario.mixedAnnotation Scenario.incomeData
          Scenario.coordinatesOnly Scenario.checkedWorld).1
  = form Scenario.checkedWorld
  /\ CallsAdded isDrawCall 2 Scenario.checkedWorld
       (Scenario.render0 Scenario.mixedAnnotation Scenario.incomeData
          Scenario.coordinatesOnly Scenario.checkedWorld).1.
Proof.
  apply (@coordinates_only_draw Scenario.noDates Scenario.monoFont
           Scenario.mixedAnnotation Scenario.incomeData
           Scenario.coordinatesOnly Scenario.checkedWorld).
  reflexivity.
Defined.

(** ** Fields that are skipped, fields that are set *)

Lemma isBlank_no_digits value :
  isBlank value = true -> Str.filter Str.isDigit (Js.toStr value) = "".
Proof.
  destruct value as [| | | |s| |]; try discriminate; try reflexivity.
  destruct s; [reflexivity|discriminate].
Qed.

Lemma strictEq_nonempty s :
  Str.isEmpty s = false -> Js.strictEq (VStr s) (VStr "") = false.
Proof. destruct s; [discriminate|reflexivity]. Qed.

Lemma setText_fits name maxLength text w :
  fits maxLength text = true ->
  setText name maxLength text w
  = (addCall (SetText name text)
       (<[name := TextField (if Str.isEmpty text then None else Some text)
                    maxLength]> (form w)) w, Ok tt).
Proof.
  unfold fits, setText, record. destruct maxLength as [max|]; [|reflexivity].
  intros Hf. apply Nat.leb_le in Hf.
  destruct (Nat.ltb_spec max (String.length text)); [lia|reflexivity].
Qed.

Section FieldsSkippedOrSet.
Context `{DateEngine} `{Font}.




(** X16. Native placement of an SSN: when the value has digits and
    they fit the [maxLength] of the native text field, the step sets
    exactly the digits of the value on that field (the dashes the
    formatter puts in are taken out again) and counts the field as
    filled. *)
Theorem ssn_native_sets_digits data a b field w v old maxLength :
  field_type field = "ssn" ->
  isActive data field = true ->
  hasNativeId field = true ->
  getNestedValue data (path (field_binding field))
    (fallback (field_binding field)) = Ok v ->
  let digits :=
    Str.filter Str.isDigit
      (Js.toStr (applyTransform v (transform (field_binding field)))) in
  Str.isEmpty digits = false ->
  form w !! nativeId field = Some (TextField old maxLength) ->
  fits maxLength digits = true ->
  nativeStep data (a, b) field w
  = (addCall (SetText (nativeId field) digits)
       (<[nativeId field := TextField (Some digits) maxLength]> (form w)) w,
     Ok (S a, b)).
Proof.
  intros Ht Ha Hn Hv digits He Hform Hfits.
  set (value := applyTransform v (transform (field_binding field))) in *.
  assert (Hb : isBlank value = false).
  { destruct (isBlank value) eqn:Hb; [|reflexivity].
    apply isBlank_no_digits in Hb. fold digits in Hb. rewrite Hb in He.
    discriminate. }
  assert (Hc : isCheckbox field = false).
  { unfold isCheckbox. rewrite Ht. reflexivity. }
  assert (Hf : exists formatted,
             formattedResult data field = Ok (VStr formatted)
             /\ Str.isEmpty formatted = false
             /\ stripDashes formatted = digits).
  { unfold formattedResult. rewrite Hv. cbn [rbind]. fold value.
    rewrite (formatValue_ssn _ _ Ht), Hb. cbv zeta. fold digits.
    pose proof (forallb_filter Str.isDigit (Js.toStr value)) as Hall.
    fold digits in Hall.
    destruct (String.length digits =? 9)%nat eqn:Hlen.
    - apply Nat.eqb_eq in Hlen. eexists. split; [reflexivity|]. split.
      + apply (StrFacts.isEmpty_append_false _ "-" _ eq_refl).
      + apply (nine_digits_dashed digits Hlen Hall).
    - exists digits. split; [reflexivity|]. split; [exact He|].
      apply filter_id with (p := Str.isDigit); [|exact Hall].
      intros c Hd. rewrite (isDigit_not_dash c Hd). reflexivity. }
  destruct Hf as (formatted & Hf & Hne & Hstrip).
  rewrite nativeStep_native, Hf, (strictEq_nonempty _ Hne) by assumption.
  cbn [andb]. unfold tryPlaceNative, tryCatch, bind, ret, getTextField.
  rewrite Hc, Hform, Ht. cbn [String.eqb Ascii.eqb Bool.eqb Js.toStr].
  rewrite Hstrip, (setText_fits _ _ _ _ Hfits), He. reflexivity.
Qed.

(** X17. A currency or number field whose value does not parse as a
    number is skipped in silence by both passes: no call, no warning,
    no count. *)
Theorem non_numeric_amount_skipped data field w v :
  field_type field = "currency" \/ field_type field = "number" ->
  isActive data field = true ->
  getNestedValue data (path (field_binding field))
    (fallback (field_binding field)) = Ok v ->
  Num.isNaN (Js.parseFloat
               (applyTransform v (transform (field_binding field)))) = true ->
  (forall n, coordinateStep data n field w = (w, Ok n))
  /\ (hasNativeId field = true ->
      forall counts, nativeStep data counts field w = (w, Ok counts)).
Proof.
  intros Ht Ha Hv Hnan.
  assert (Hf : formattedResult data field = Ok (VStr "")).
  { unfold formattedResult. rewrite Hv. cbn [rbind]. unfold formatValue.
    destruct (isBlank _); [reflexivity|].
    destruct Ht as [Ht|Ht]; rewrite Ht;
      cbn [String.eqb Ascii.eqb Bool.eqb]; rewrite Hnan; reflexivity. }
  assert (Hc : isCheckbox field = false).
  { unfold isCheckbox. destruct Ht as [Ht|Ht]; rewrite Ht; reflexivity. }
  split.
  - intros n. rewrite coordinateStep_active, Hf, Hc by assumption.
    reflexivity.
  - intros Hn counts. rewrite nativeStep_native, Hf, Hc by assumption.
    reflexivity.
Qed.

End FieldsSkippedOrSet.


Lemma ssn_native_sets_digits_witness :
  @nativeStep Scenario.noDates Scenario.taxpayerData (0, 0)%nat
    Scenario.ssnField Scenario.ssnWorld
  = (addCall (SetText "f1_06" "123456789")
       (<["f1_06" := TextField (Some "123456789") (Some 9%nat)]>
          (form Scenario.ssnWorld)) Scenario.ssnWorld,
     Ok (1, 0)%nat).
Proof.
  apply (@ssn_native_sets_digits Scenario.noDates Scenario.taxpayerData
           0%nat 0%nat Scenario.ssnField Scenario.ssnWorld
           (VStr "123-45-6789") None (Some 9%nat)); reflexivity.
Defined.

Lemma non_numeric_amount_skipped_witness :
  let data := VObj [("income", VObj [("total", VStr "n/a")])] in
  let field :=
    Scenario.field "line9" "currency" "income.total" noFormat (Some "f1_47") in
  (forall n,
      @coordinateStep Scenario.noDates Scenario.monoFont data n field
        Scenario.onePage = (Scenario.onePage, Ok n))
  /\ (hasNativeId field = true ->
      forall counts,
        @nativeStep Scenario.noDates data counts field Scenario.onePage
        = (Scenario.onePage, Ok counts)).
Proof.
  apply (@non_numeric_amount_skipped Scenario.noDates Scenario.monoFont
           (VObj [("income", VObj [("total", VStr "n/a")])])
           (Scenario.field "line9" "currency" "income.total" noFormat
              (Some "f1_47"))
           Scenario.onePage (VStr "n/a"));
    [left; reflexivity | reflexivity | reflexivity | reflexivity].
Defined.

(** ** Check boxes *)

Section CheckBoxes.
Context `{DateEngine} `{Font}.

Lemma checkbox_formatted data field v :
  isCheckbox field = true ->
  getNestedValue data (path (field_binding field))
    (fallback (field_binding field)) = Ok v ->
  let value := applyTransform v (transform (field_binding field)) in
  exists fv,
    formattedResult data field = Ok fv
    /\ Js.strictEq fv (VBool true) = Js.truthy value.
Proof.
  intros Hc Hv value. unfold formattedResult. rewrite Hv. cbn [rbind].
  fold value. unfold isCheckbox in Hc. apply String.eqb_eq in Hc.
  unfold formatValue. rewrite Hc.
  destruct (isBlank value) eqn:Hb.
  - exists (VStr ""). split; [reflexivity|].
    destruct value as [| | | |s| |]; try discriminate; try reflexivity.
    destruct s; [reflexivity|discriminate].
  - exists (VBool (Js.truthy value)). split; [reflexivity|].
    cbn [Js.strictEq]. destruct (Js.truthy value); reflexivity.
Qed.

(** X18. Coordinate placement marks a check box exactly when its value
    is truthy: on a page the document has, with a mark the font can
    encode, the step draws the mark (["X"] unless the format gives
    another) about the centre of the rectangle when the value is truthy,
    and does nothing otherwise. *)
Theorem checkbox_marked_iff_truthy data n field w v :
  isCheckbox field = true ->
  isActive data field = true ->
  getNestedValue data (path (field_binding field))
    (fallback (field_binding field)) = Ok v ->
  (1 <= field_page field <= Z.of_nat (pageCount w))%Z ->
  let value := applyTransform v (transform (field_binding field)) in
  let mark := orString (checkMark (field_format field)) "X" in
  let pos := field_position field in
  let size := fontSizeOf (field_format field) in
  canEncode mark = true ->
  coordinateStep data n field w
  = if Js.truthy value
    then (addCall (DrawText (Z.to_nat (field_page field - 1)) mark
                     (pos_x pos + pos_width pos / 2 - size / 4)%Q
                     (pos_y pos + pos_height pos / 2 - size / 3)%Q size)
            (form w) w, Ok (S n))
    else (w, Ok n).
Proof.
  intros Hc Ha Hv Hp value mark pos size He.
  destruct (checkbox_formatted data field v Hc Hv) as (fv & Hf & Ht).
  fold value in Ht.
  rewrite coordinateStep_active, Hf, Hc by assumption.
  rewrite andb_false_r.
  replace ((1 <=? field_page field)%Z
           && (field_page field <=? Z.of_nat (pageCount w))%Z) with true
    by (symmetry; apply andb_true_intro; split; apply Z.leb_le; lia).
  unfold drawField, bind, ret, drawText, record. rewrite Hc, Ht.
  destruct (Js.truthy value); [|reflexivity].
  fold mark. rewrite He. reflexivity.
Qed.

(** X19. Native placement checks a check box exactly when its value is
    truthy: on a form that has a check box under the native identifier
    of the field, the step checks it and counts the field when the value
    is truthy, and does nothing otherwise. *)
Theorem checkbox_checked_iff_truthy data a b field w v checked :
  isCheckbox field = true ->
  isActive data field = true ->
  hasNativeId field = true ->
  getNestedValue data (path (field_binding field))
    (fallback (field_binding field)) = Ok v ->
  form w !! nativeId field = Some (CheckBox checked) ->
  let value := applyTransform v (transform (field_binding field)) in
  nativeStep data (a, b) field w
  = if Js.truthy value
    then (addCall (Check (nativeId field))
            (<[nativeId field := CheckBox true]> (form w)) w, Ok (S a, b))
    else (w, Ok (a, b)).
Proof.
  intros Hc Ha Hn Hv Hform value.
  destruct (checkbox_formatted data field v Hc Hv) as (fv & Hf & Ht).
  fold value in Ht.
  rewrite nativeStep_native, Hf, Hc by assumption.
  rewrite andb_false_r.
  unfold tryPlaceNative, tryCatch, bind, ret, getCheckBox, check, record.
  rewrite Hc, Ht. destruct (Js.truthy value); [|reflexivity].
  rewrite Hform. reflexivity.
Qed.

End CheckBoxes.

Lemma checkbox_marked_iff_truthy_witness :
  @coordinateStep Scenario.noDates Scenario.monoFont Scenario.incomeData
    0%nat (Scenario.field "hasIncome" "checkbox" "income.total" noFormat None)
    Scenario.onePage
  = (addCall (DrawText 0 "X" (504 + 72 / 2 - 10 / 4)%Q
                (330 + 12 / 2 - 10 / 3)%Q 10%Q) ∅ Scenario.onePage,
     Ok 1%nat).
Proof.
  apply (@checkbox_marked_iff_truthy Scenario.noDates Scenario.monoFont
           Scenario.incomeData 0%nat
           (Scenario.field "hasIncome" "checkbox" "income.total" noFormat None)
           Scenario.onePage (Scenario.num 578905 1));
    [reflexivity | reflexivity | reflexivity | simpl; lia | reflexivity].
Defined.

Lemma checkbox_checked_iff_truthy_witness :
  @nativeStep Scenario.noDates Scenario.incomeData (0, 0)%nat
    (Scenario.field "hasIncome" "checkbox" "income.total" noFormat
       (Some "c1_1")) Scenario.checkedWorld
  = (addCall (Check "c1_1") (<["c1_1" := CheckBox true]>
                               (form Scenario.checkedWorld))
       Scenario.checkedWorld, Ok (1, 0)%nat).
Proof.
  apply (@checkbox_checked_iff_truthy Scenario.noDates Scenario.incomeData
           0%nat 0%nat
           (Scenario.field "hasIncome" "checkbox" "income.total" noFormat
              (Some "c1_1")) Scenario.checkedWorld (Scenario.num 578905 1)
           true); reflexivity.
Defined.

(** ** The [count] transform over a wildcard *)



(** ** The 1040 script *)

(** X21. [getCheckboxValues] throws on [null] and [undefined] data
    and on nothing else; the boxes it returns have pairwise different
    keys, all with the value [true], among them one filing status at
    most, and never both answers on digital assets. *)
Theorem checkbox_values_exclusive data :
  if Js.isNullish data
  then exists e, Form1040.getCheckboxValues data = Throw e
  else exists boxes,
      Form1040.getCheckboxValues data = Ok boxes /\ exclusiveBoxes boxes.
Proof.
  unfold Form1040.getCheckboxValues, Js.member.
  destruct (Js.isNullish data); [cbn [rbind]; eauto|].
  cbn [rbind]. eexists. split; [reflexivity|].
  repeat match goal with
         | |- context [if ?c then _ else _] => destruct c
         end;
    (split; [apply (bool_decide_eq_true_1 _); vm_compute; reflexivity|];
     split; [repeat constructor|];
     split; [vm_compute; lia|];
     cbn; intuition discriminate).
Qed.

Lemma fillTextStep_cases textFields filled errors entry w :
  (Form1040.fillTextStep textFields (filled, errors) entry w
   = (w, Ok (filled, errors))
   /\ mapped textFields entry = false)
  \/ (mapped textFields entry = true
      /\ ((exists name text fm,
              Form1040.fillTextStep textFields (filled, errors) entry w
              = (addCall (SetText name text) fm w, Ok (S filled, errors)))
          \/ (exists msg,
                 Form1040.fillTextStep textFields (filled, errors) entry w
                 = (addWarning msg w, Ok (filled, S errors))))).
Proof.
  destruct entry as [dataPath value].
  unfold Form1040.fillTextStep, mapped. cbn [fst snd].
  destruct (Js.truthy value); cbn [negb andb]; [|left; split; reflexivity].
  destruct (Str.isEmpty (orString (textFields !! dataPath) ""));
    [left; split; reflexivity|].
  right. split; [reflexivity|].
  unfold tryCatch, bind, ret, warn, getTextField, setText, record.
  destruct (form w !! orString (textFields !! dataPath) "")
    as [[text [max|]|checked|kind]|]; eauto.
  destruct (max <? String.length (Js.toStr value))%nat; eauto.
Qed.

Lemma fillTextLoop_accounts textFields fieldValues :
  forall filled errors w,
  exists w' filled' errors' cs ws,
    Form1040.forEachEntry (Form1040.fillTextStep textFields) (filled, errors)
      fieldValues w = (w', Ok (filled', errors'))
    /\ (filled' + errors'
        = filled + errors
          + length (List.filter (mapped textFields) fieldValues))%nat
    /\ calls w' = calls w ++ cs /\ Forall isSetText cs
    /\ (filled' = filled + length cs)%nat
    /\ warnings w' = warnings w ++ ws
    /\ (errors' = errors + length ws)%nat
    /\ pageCount w' = pageCount w.
Proof.
  induction fieldValues as [|entry fieldValues IH]; intros filled errors w.
  - exists w, filled, errors, [], []. cbn. rewrite !app_nil_r.
    repeat split; lia || constructor.
  - cbn [Form1040.forEachEntry List.filter]. unfold bind.
    destruct (fillTextStep_cases textFields filled errors entry w)
      as [[-> ->]|[-> [(name & text & fm & ->)|(msg & ->)]]].
    + apply IH.
    + destruct (IH (S filled) errors (addCall (SetText name text) fm w))
        as (w' & f' & e' & cs & ws & -> & Hsum & Hc & Hall & Hf & Hw & He & Hp).
      exists w', f', e', (SetText name text :: cs), ws.
      cbn [calls warnings addCall pageCount length] in *.
      rewrite Hc, <- app_assoc.
      repeat split; try assumption; try lia.
      constructor; [exact I|assumption].
    + destruct (IH filled (S errors) (addWarning msg w))
        as (w' & f' & e' & cs & ws & -> & Hsum & Hc & Hall & Hf & Hw & He & Hp).
      exists w', f', e', cs, (msg :: ws).
      cbn [calls warnings addWarning pageCount length] in *.
      rewrite Hw, <- app_assoc.
      repeat split; try assumption; try lia.
Qed.

(** X22. The text loop of [fillForm] never throws and accounts for
    every entry it tries: each entry with a truthy value and a mapped
    field is either set (one [setText] call, counted in [filledCount]) or
    reported (one warning, counted in [errorCount]); every other entry is
    passed over, and the loop makes no other call. *)
Theorem text_loop_accounts textFields fieldValues w :
  exists w' filledCount errorCount setTexts warned,
    Form1040.fillTextFields textFields fieldValues w
    = (w', Ok (filledCount, errorCount))
    /\ (filledCount + errorCount
        = length (List.filter (mapped textFields) fieldValues))%nat
    /\ calls w' = calls w ++ setTexts
    /\ Forall isSetText setTexts
    /\ length setTexts = filledCount
    /\ warnings w' = warnings w ++ warned
    /\ length warned = errorCount.
Proof.
  destruct (fillTextLoop_accounts textFields fieldValues 0%nat 0%nat w)
    as (w' & f' & e' & cs & ws & Hr & Hsum & Hc & Hall & Hf & Hw & He & _).
  exists w', f', e', cs, ws. unfold Form1040.fillTextFields.
  repeat split; try assumption; lia.
Qed.

(** ** Errors of the coordinate pass *)

Section CoordinateErrors.
Context `{DateEngine} `{Font}.

(** X23. The coordinate pass has no [try]: when the font cannot encode
    the text of a field, the error of the measurement leaves the loop,
    no later field is processed, and a render in coordinate mode ends
    with that error, with nothing drawn for the field. *)
Theorem unencodable_text_aborts data n field rest w fv :
  isActive data field = true ->
  isCheckbox field = false ->
  formattedResult data field = Ok fv ->
  Js.strictEq fv (VStr "") = false ->
  (1 <= field_page field <= Z.of_nat (pageCount w))%Z ->
  canEncode (Js.toStr fv) = false ->
  coordinateStep data n field w = (w, Throw (cannotEncode (Js.toStr fv)))
  /\ forEach (coordinateStep data) n (field :: rest) w
     = (w, Throw (cannotEncode (Js.toStr fv)))
  /\ (forall options,
         useNative {| fields := field :: rest |} options = false ->
         render {| fields := field :: rest |} data options w
         = (w, Throw (cannotEncode (Js.toStr fv)))).
Proof.
  intros Ha Hc Hf Hne Hp He.
  assert (Hs : forall m, coordinateStep data m field w
                         = (w, Throw (cannotEncode (Js.toStr fv)))).
  { intros m. rewrite coordinateStep_active, Hf, Hne, Hc by assumption.
    cbn [andb].
    replace ((1 <=? field_page field)%Z
             && (field_page field <=? Z.of_nat (pageCount w))%Z) with true
      by (symmetry; apply andb_true_intro; split; apply Z.leb_le; lia).
    unfold drawField, bind, measureText, throw. rewrite Hc, He.
    reflexivity. }
  split; [apply Hs|]. split.
  - rewrite forEach_cons, Hs. reflexivity.
  - intros options Hu. rewrite render_coordinates by assumption.
    unfold fillWithCoordinates. cbn [fields].
    rewrite forEach_cons, Hs. reflexivity.
Qed.

End CoordinateErrors.

Lemma unencodable_text_aborts_witness :
  let data := VObj [("name", VStr (String "007"%char "x"))] in
  let field := Scenario.field "name" "text" "name" noFormat None in
  Scenario.render0 {| fields := [field; field] |} data noOptions
    Scenario.onePage
  = (Scenario.onePage, Throw (cannotEncode (String "007"%char "x"))).
Proof.
  destruct (@unencodable_text_aborts Scenario.noDates Scenario.monoFont
              (VObj [("name", VStr (String "007"%char "x"))]) 0%nat
              (Scenario.field "name" "text" "name" noFormat None)
              [Scenario.field "name" "text" "name" noFormat None]
              Scenario.onePage (VStr (String "007"%char "x")))
    as (_ & _ & Hr);
    [reflexivity | reflexivity | reflexivity | reflexivity | simpl; lia
    | reflexivity |].
  apply Hr. reflexivity.
Defined.
